(** * cushion: request dispatch and argument resolution

    A shallow embedding of the CouchDB client's connection object
    (nodecouch.js), its database handle (database.js) and its design
    document handle (design.js), with the properties of the dispatch and
    argument-resolution core stated over it.

    Conventions of the embedding.
    - JavaScript values are the inductive [JS.jsval]; numbers are the
      integer-valued ones (printed in plain decimal, as below 1e21),
      strings are sequences of 8-bit characters.
    - A [JS.JObj] lists the own properties of a plain object, whose
      prototype is Object.prototype.
    - An expression that can throw is a [JS.completion].
    - Built-ins of the platform that the sources call but do not define
      ([JSON.parse], [JSON.stringify], [querystring.stringify]) enter as
      section variables: every statement holds for any implementation. *)

From Stdlib Require Import String Ascii List ZArith Lia Bool DecimalString.
Import ListNotations.
Local Open Scope string_scope.
Local Open Scope list_scope.
Set Warnings "-register-all".


(* ================================================================= *)
(** ** JavaScript values and the primitive operations the sources use *)

Module JS.

Inductive jsval : Type :=
| JUndefined
| JNull
| JBool (b : bool)
| JNum (n : Z)
| JStr (s : string)
| JArr (elems : list jsval)
| JObj (fields : list (string * jsval)) (* own properties of a plain object *)
| JFun (source : string)                (* a function, named by its source text *)
| JErr (kind message : string)          (* an Error instance *)
| JBuiltin (member : string).           (* the value of Object.prototype[member] *)

Inductive completion (A : Type) : Type :=
| Normal (a : A)
| Throw (e : jsval).
Arguments Normal {A} a.
Arguments Throw {A} e.

Definition bind {A B} (c : completion A) (f : A -> completion B) : completion B :=
  match c with
  | Normal a => f a
  | Throw e => Throw e
  end.

Definition TypeError (message : string) : jsval := JErr "TypeError" message.
Definition ReferenceError (message : string) : jsval := JErr "ReferenceError" message.

(** [typeof v] *)
Definition typeof (v : jsval) : string :=
  match v with
  | JUndefined => "undefined"
  | JNull => "object"
  | JBool _ => "boolean"
  | JNum _ => "number"
  | JStr _ => "string"
  | JArr _ | JObj _ | JErr _ _ => "object"
  | JFun _ => "function"
  | JBuiltin m => if String.eqb m "__proto__" then "object" else "function"
  end.

(** ToBoolean *)
Definition truthy (v : jsval) : bool :=
  match v with
  | JUndefined | JNull => false
  | JBool b => b
  | JNum n => negb (Z.eqb n 0)
  | JStr s => negb (String.eqb s EmptyString)
  | _ => true
  end.

(** [v === null], [v === true], [v === 'lit'] *)
Definition is_null (v : jsval) : bool :=
  match v with JNull => true | _ => false end.
Definition is_true (v : jsval) : bool :=
  match v with JBool true => true | _ => false end.
Definition is_string (v : jsval) (lit : string) : bool :=
  match v with JStr s => String.eqb s lit | _ => false end.

(** [a || b] and the conditional on a value *)
Definition js_or (a b : jsval) : jsval := if truthy a then a else b.

(** Own properties, kept in insertion order. *)
Fixpoint own (fields : list (string * jsval)) (k : string) : option jsval :=
  match fields with
  | [] => None
  | (k', v) :: rest => if String.eqb k k' then Some v else own rest k
  end.

(** The property names every plain object inherits from Object.prototype. *)
Definition Object_prototype : list string :=
  [ "constructor"; "toString"; "toLocaleString"; "valueOf"; "hasOwnProperty";
    "isPrototypeOf"; "propertyIsEnumerable"; "__proto__";
    "__defineGetter__"; "__defineSetter__"; "__lookupGetter__"; "__lookupSetter__" ].

Definition inherited (k : string) : bool :=
  existsb (String.eqb k) Object_prototype.

(** [o[k]] on a plain object: own property first, then the prototype. *)
Definition obj_get (fields : list (string * jsval)) (k : string) : jsval :=
  match own fields k with
  | Some v => v
  | None => if inherited k then JBuiltin k else JUndefined
  end.

Fixpoint obj_put (fields : list (string * jsval)) (k : string) (v : jsval)
  : list (string * jsval) :=
  match fields with
  | [] => [(k, v)]
  | (k', v') :: rest =>
      if String.eqb k k' then (k', v) :: rest else (k', v') :: obj_put rest k v
  end.

(** [o[k] = v] on a plain object.  An own property is overwritten.  The
    key [__proto__] is otherwise the accessor of Object.prototype:
    assigning to it creates no own property (a primitive is ignored, an
    object would replace the prototype). *)
Definition obj_set (fields : list (string * jsval)) (k : string) (v : jsval)
  : list (string * jsval) :=
  match own fields k with
  | Some _ => obj_put fields k v
  | None => if String.eqb k "__proto__" then fields else obj_put fields k v
  end.

(** [v.k] for the property names the sources read ([error], [ok],
    [version], [total_rows], [offset], [rows], [purged], [id], [value],
    [rev]); none of them is a member of a built-in prototype, so only a
    plain object can carry one. *)
Definition get_prop (v : jsval) (k : string) : completion jsval :=
  match v with
  | JUndefined | JNull =>
      Throw (TypeError ("Cannot read property '" ++ k ++ "' of " ++
                        (if is_null v then "null" else "undefined")))
  | JObj fields => Normal (obj_get fields k)
  | _ => Normal JUndefined
  end.

Definition nat_to_string (i : nat) : string :=
  NilEmpty.string_of_uint (Nat.to_uint i).

(** [v[i]] for an integer index [i] *)
Definition js_index (v : jsval) (i : nat) : completion jsval :=
  match v with
  | JUndefined | JNull =>
      Throw (TypeError ("Cannot read property '" ++ nat_to_string i ++ "' of " ++
                        (if is_null v then "null" else "undefined")))
  | JArr elems => Normal (nth i elems JUndefined)
  | JStr s => Normal (match String.get i s with
                      | Some c => JStr (String c EmptyString)
                      | None => JUndefined
                      end)
  | JObj fields => Normal (match own fields (nat_to_string i) with
                           | Some x => x
                           | None => JUndefined
                           end)
  | _ => Normal JUndefined
  end.

(** [x.substr(0, 1)]: only strings have the method. *)
Definition substr_0_1 (x : jsval) : completion jsval :=
  match x with
  | JStr s => Normal (JStr (String.substring 0 1 s))
  | JUndefined | JNull => Throw (TypeError "Cannot call method 'substr' of undefined")
  | _ => Throw (TypeError "Object has no method 'substr'")
  end.

Fixpoint remove_nth {A} (i : nat) (l : list A) : list A :=
  match l, i with
  | [], _ => []
  | _ :: rest, O => rest
  | x :: rest, S i' => x :: remove_nth i' rest
  end.

(** [a.splice(i, 1)] as a statement: only arrays have the method. *)
Definition splice_1 (a : jsval) (i : nat) : completion jsval :=
  match a with
  | JArr elems => Normal (JArr (remove_nth i elems))
  | _ => Throw (TypeError "Object has no method 'splice'")
  end.

Fixpoint join (sep : string) (parts : list string) : string :=
  match parts with
  | [] => EmptyString
  | [p] => p
  | p :: rest => p ++ sep ++ join sep rest
  end.

(** ToString, as applied by [+] with a string operand and by a computed
    property key.  A number is printed in plain decimal, which is the
    text JavaScript gives for integers it represents exactly and below
    1e21; larger ones are outside. *)
Fixpoint to_string (v : jsval) : string :=
  match v with
  | JUndefined => "undefined"
  | JNull => "null"
  | JBool true => "true"
  | JBool false => "false"
  | JNum n => NilEmpty.string_of_int (Z.to_int n)
  | JStr s => s
  | JArr elems =>
      join "," (map (fun x => match x with
                              | JUndefined | JNull => EmptyString
                              | _ => to_string x
                              end) elems)
  | JObj _ => "[object Object]"
  | JFun source => source
  | JErr kind message =>
      if String.eqb message EmptyString then kind
      else if String.eqb kind EmptyString then message
      else kind ++ ": " ++ message
  | JBuiltin m =>
      if String.eqb m "__proto__" then "[object Object]"
      else "function " ++ m ++ "() { [native code] }"
  end.

End JS.

(* ================================================================= *)
(** ** The regular-expression literals of the sources

    Both literals are disjunctions of sequences of a line-start assertion,
    literal characters and optional literal characters. *)

Module RegExp.

Inductive term : Type :=
| Bol                (* ^  *)
| Chr (c : ascii)    (* c  *)
| Opt (c : ascii).   (* c? *)

Record regexp : Type := {
  alternatives : list (list term);
  ignoreCase : bool
}.

Definition upper (c : ascii) : ascii :=
  let n := nat_of_ascii c in
  if Nat.leb 97 n && Nat.leb n 122 then ascii_of_nat (n - 32) else c.

Definition char_eq (ci : bool) (a b : ascii) : bool :=
  if ci then Ascii.eqb (upper a) (upper b) else Ascii.eqb a b.

Fixpoint literal (s : string) : list term :=
  match s with
  | EmptyString => []
  | String c rest => Chr c :: literal rest
  end.

(** Does the sequence [ts] match at the current position?  [at_start]
    tells whether that position is the start of the input; [s] is the rest
    of the input. *)
Fixpoint match_here (ci : bool) (ts : list term) (at_start : bool) (s : string) : bool :=
  match ts with
  | [] => true
  | Bol :: ts' => at_start && match_here ci ts' at_start s
  | Chr c :: ts' =>
      match s with
      | String a s' => char_eq ci c a && match_here ci ts' false s'
      | EmptyString => false
      end
  | Opt c :: ts' =>
      match s with
      | String a s' => char_eq ci c a && match_here ci ts' false s'
      | EmptyString => false
      end || match_here ci ts' at_start s
  end.

Definition match_at (r : regexp) (at_start : bool) (s : string) : bool :=
  existsb (fun alt => match_here (ignoreCase r) alt at_start s) (alternatives r).

Fixpoint search (r : regexp) (at_start : bool) (s : string) : bool :=
  match_at r at_start s ||
  match s with
  | String _ s' => search r false s'
  | EmptyString => false
  end.

(** [s.match(r) !== null] for a regexp without the global flag. *)
Definition matches (s : string) (r : regexp) : bool := search r true s.

End RegExp.

(* ================================================================= *)
(** ** nodecouch.js: the connection and its request dispatcher *)

Module Nodecouch.
Import JS.

(** [this._methodMatch = /^GET|PUT|POST|DELETE|HEAD|COPY?/i]: six
    alternatives, the first one anchored, the last one ending in an
    optional Y. *)
Definition methodMatch : RegExp.regexp :=
  {| RegExp.alternatives :=
       [ RegExp.Bol :: RegExp.literal "GET";
         RegExp.literal "PUT";
         RegExp.literal "POST";
         RegExp.literal "DELETE";
         RegExp.literal "HEAD";
         RegExp.literal "COP" ++ [RegExp.Opt "Y"%char] ];
     RegExp.ignoreCase := true |}.

(** [this._options] *)
Record options : Type := {
  host : jsval;
  port : jsval;
  username : jsval;
  password : jsval
}.

(** The constructor; [defaultOptions] is what [require('./config.js')]
    yields. *)
Definition nodecouch (defaultOptions : options) (h p u pw : jsval) : options :=
  {| host := js_or h (host defaultOptions);
     port := js_or p (port defaultOptions);
     username := js_or u (username defaultOptions);
     password := js_or pw (password defaultOptions) |}.

(** The members a connection has: the two fields the constructor sets and
    the methods put on [nodecouch.prototype]. *)
Definition instance_members : list string := ["_methodMatch"; "_options"].
Definition prototype_members : list string :=
  ["database"; "getVersion"; "listDatabases"; "_request"; "request"].
Definition has_member (name : string) : bool :=
  existsb (String.eqb name)
          (instance_members ++ prototype_members ++ Object_prototype).

(** The argument of [request]; [K] is how the callback is represented. *)
Record properties (K : Type) : Type := {
  method : jsval;
  path : jsval;
  headers : jsval;
  body : jsval;
  callback : K
}.
Arguments method {K} _.
Arguments path {K} _.
Arguments headers {K} _.
Arguments body {K} _.
Arguments callback {K} _.

(** The [options] literal handed to [http.request], and what is written
    to the request before [end()]. *)
Record http_options : Type := {
  o_host : jsval;
  o_port : jsval;
  o_method : jsval;
  o_path : string;
  o_auth : string;
  o_headers : jsval
}.

Record outbound : Type := {
  sent_options : http_options;
  written : list string
}.

(** [s.match(r) !== null] guarded by [typeof s === 'string'] *)
Definition string_matches (v : jsval) (r : RegExp.regexp) : bool :=
  String.eqb (typeof v) "string" &&
  match v with
  | JStr s => RegExp.matches s r
  | _ => false
  end.

(** The [method] entry of the options literal. *)
Definition request_method (m : jsval) : jsval :=
  if string_matches m methodMatch then m else JStr "GET".

(** A callback as the dispatcher sees it: called with (error, response),
    it returns ([None]) or throws ([Some e]). *)
Definition continuation : Type := jsval -> jsval -> option jsval.

(** What running a listener did: the calls of the callback, in order, and
    the exception that escaped, if any. *)
Record run : Type := {
  invoked : list (jsval * jsval);
  thrown : option jsval
}.

Definition call (k : continuation) (a b : jsval) : run :=
  {| invoked := [(a, b)]; thrown := k a b |}.

(** [try { r } catch (error) { handler error }] around a run *)
Definition try_catch (r : run) (handler : jsval -> run) : run :=
  match thrown r with
  | None => r
  | Some e =>
      let r' := handler e in
      {| invoked := invoked r ++ invoked r'; thrown := thrown r' |}
  end.

(** The body of the ['end'] listener of [_request], given the completion
    of [JSON.parse(content)]. *)
Definition end_listener (parsed : completion jsval) (callback : continuation) : run :=
  let catch := fun error => call callback error JNull in
  match parsed with
  | Throw error => catch error
  | Normal content =>
      match get_prop content "error" with
      | Throw error => catch error
      | Normal content_error =>
          try_catch
            (call callback
                  (if truthy content_error then content else JNull)
                  (if negb (truthy content_error) then content else JNull))
            catch
      end
  end.

(** What the transport does with a dispatched request. *)
Inductive transport_event : Type :=
| Response (chunks : list string)   (* 'data' events, then 'end' *)
| Error (error : jsval).            (* an 'error' event *)

Section Dispatcher.

Variable JSON_parse : string -> completion jsval.
Variable JSON_stringify : jsval -> string.

(** The behaviour of the members of a connection when called as
    [this.<name>(callback, a, b)]. *)
Variable member_call : string -> continuation -> jsval -> jsval -> run.

(** [_request]: accumulate the chunks, parse at ['end']. *)
Definition _request (callback : continuation) (chunks : list string) : run :=
  let content := fold_left String.append chunks EmptyString in
  end_listener (JSON_parse content) callback.

(** [this.<name>(callback, a, b)]: a name that is not a member yields
    [undefined], and calling that throws. *)
Definition call_member (name : string) (callback : continuation) (a b : jsval) : run :=
  if has_member name then member_call name callback a b
  else {| invoked := [];
          thrown := Some (TypeError ("Object #<Object> has no method '" ++ name ++ "'")) |}.

(** The ['error'] listener installed by [request]. *)
Definition error_listener (callback : continuation) (error : jsval) : run :=
  call_member "_responseHandler" callback error JNull.

(** [request]: the options literal and the body written. *)
Definition request {K} (this : options) (properties : properties K) : outbound :=
  {| sent_options :=
       {| o_host := host this;
          o_port := port this;
          o_method := request_method (method properties);
          o_path := "/" ++ to_string (js_or (path properties) (JStr EmptyString));
          o_auth := to_string (username this) ++ ":" ++ to_string (password this);
          o_headers := js_or (headers properties) JNull |};
     written :=
       if String.eqb (typeof (body properties)) "object"
       then [JSON_stringify (body properties)]
       else [] |}.

(** The listeners of a dispatched request, run on what the transport
    does. *)
Definition dispatch (properties : properties continuation) (ev : transport_event) : run :=
  match ev with
  | Response chunks => _request (callback properties) chunks
  | Error error => error_listener (callback properties) error
  end.

End Dispatcher.

(** The callback of [getVersion]: the arguments it passes on. *)
Definition getVersion_callback (error response : jsval) : completion (list jsval) :=
  if negb (is_null response)
  then bind (get_prop response "version") (fun version => Normal [error; version])
  else Normal [error; response].

(** The loop of [listDatabases]:
    [for (i = 0; response[i]; ++i) if (response[i].substr(0, 1) === '_')
       { response.splice(i, 1); --i; }].
    [None] when [fuel] iterations did not finish it. *)
Fixpoint strip_couch_related (fuel : nat) (response : jsval) (i : nat)
  : option (completion jsval) :=
  match fuel with
  | O => None
  | S fuel' =>
      match js_index response i with
      | Throw e => Some (Throw e)
      | Normal x =>
          if truthy x then
            match substr_0_1 x with
            | Throw e => Some (Throw e)
            | Normal first =>
                if is_string first "_" then
                  match splice_1 response i with
                  | Throw e => Some (Throw e)
                  | Normal response' => strip_couch_related fuel' response' i
                  end
                else strip_couch_related fuel' response (S i)
            end
          else Some (Normal response)
      end
  end.

(** The callback of [listDatabases]: the arguments it passes on. *)
Definition listDatabases_callback (fuel : nat) (noCouchRelated : jsval)
           (error response : jsval) : option (completion (list jsval)) :=
  if is_null error && negb (is_null response) && is_true noCouchRelated then
    match strip_couch_related fuel response 0 with
    | None => None
    | Some (Throw e) => Some (Throw e)
    | Some (Normal response') => Some (Normal [error; response'])
    end
  else Some (Normal [error; response]).

(** The callbacks the connection's own methods hand to [request], each
    closing over the caller's function. *)
Inductive connection_callback : Type :=
| GetVersion (callback : jsval)
| ListDatabases (callback noCouchRelated : jsval).

Definition getVersion (callback : jsval) : properties connection_callback :=
  {| method := JStr "GET"; path := JUndefined; headers := JUndefined;
     body := JUndefined; callback := GetVersion callback |}.

Definition listDatabases (callback noCouchRelated : jsval)
  : properties connection_callback :=
  {| method := JStr "GET"; path := JStr "_all_dbs"; headers := JUndefined;
     body := JUndefined; callback := ListDatabases callback noCouchRelated |}.

End Nodecouch.

(* ================================================================= *)
(** ** design.js: the design document handle *)

Module DesignDoc.
Import JS.

(** Modelled from the spec: the [_body] that the Document constructor
    (document.js, not among the sources) gives a handle.  It is the
    in-memory mapping of the document; of it a design document manages
    the sub-mapping [shows] (name to function source), which is absent
    until first used and a plain object afterwards. *)
Record body : Type := {
  shows : option (list (string * jsval));
  other_fields : list (string * jsval)
}.

Record design : Type := {
  _id : jsval;
  _revision : jsval;
  _body : body
}.

(** What [show] returns: the receiver, or a value. *)
Inductive show_result : Type :=
| This
| Value (v : jsval).

(** [Design.prototype.show]; an omitted [content] is [None]. *)
Definition show (this : design) (name : string) (content : option string)
  : show_result * design :=
  let content_value := match content with
                       | Some source => JStr source
                       | None => JUndefined
                       end in
  if truthy content_value then
    let table := match shows (_body this) with
                 | Some table => table          (* this._body.shows || {} *)
                 | None => []
                 end in
    (This,
     {| _id := _id this;
        _revision := _revision this;
        _body := {| shows := Some (obj_set table name content_value);
                    other_fields := other_fields (_body this) |} |})
  else
    (Value match shows (_body this) with
           | Some table => obj_get table name
           | None => JUndefined
           end,
     this).

(** A design document handle fresh from [document('_design/d')]: no
    revision, nothing in the body. *)
Definition blank : design :=
  {| _id := JStr "_design/d"; _revision := JNull;
     _body := {| shows := None; other_fields := [] |} |}.

End DesignDoc.

(* ================================================================= *)
(** ** database.js: the database handle *)

Module Database.
Import JS.
Import Nodecouch.
Local Open Scope string_scope.

Definition is_type (v : jsval) (t : string) : bool := String.eqb (typeof v) t.

(** The callbacks the methods hand to [request]: the caller's function
    itself, or one of the function literals closing over it. *)
Inductive handler : Type :=
| Direct (callback : jsval)
| AllDocuments (callback : jsval)
| Started (callback : jsval)            (* cleanup and compact *)
| Create (callback : jsval)
| Destroy (callback : jsval)
| EnsureFullCommit (callback : jsval)
| Exists (callback : jsval)
| Purge (callback : jsval)
| RevisionLimit (limit callback : jsval)
| Rows (callback : jsval).              (* temporaryView and view *)

(** *** The function literals: the arguments each passes to the caller's
    function, or the exception it throws before the call *)

(** [{'total': response.total_rows, 'offset': response.offset}] *)
Definition info_of (response : jsval) : completion jsval :=
  bind (get_prop response "total_rows") (fun total =>
  bind (get_prop response "offset") (fun offset =>
  Normal (JObj [("total", total); ("offset", offset)]))).

(** [for (i = 0; response.rows[i]; ++i)
       documents[response.rows[i].id] = response.rows[i].value.rev;] *)
Fixpoint collect_revisions (fuel : nat) (response : jsval) (i : nat)
         (documents : list (string * jsval))
  : option (completion (list (string * jsval))) :=
  match fuel with
  | O => None
  | S fuel' =>
      match bind (get_prop response "rows") (fun rows => js_index rows i) with
      | Throw e => Some (Throw e)
      | Normal row =>
          if truthy row then
            match bind (get_prop row "id") (fun id =>
                  bind (get_prop row "value") (fun value =>
                  bind (get_prop value "rev") (fun rev =>
                  Normal (obj_set documents (to_string id) rev)))) with
            | Throw e => Some (Throw e)
            | Normal documents' => collect_revisions fuel' response (S i) documents'
            end
          else Some (Normal documents)
      end
  end.

Definition allDocuments_callback (fuel : nat) (error response : jsval)
  : option (completion (list jsval)) :=
  if is_null error then
    match info_of response with
    | Throw e => Some (Throw e)
    | Normal info =>
        match collect_revisions fuel response 0 [] with
        | None => None
        | Some (Throw e) => Some (Throw e)
        | Some (Normal documents) => Some (Normal [error; info; JObj documents])
        end
    end
  else Some (Normal [error; JUndefined; JObj []]).

(** [callback(error, (response) ? true : null)] *)
Definition started_callback (error response : jsval) : completion (list jsval) :=
  Normal [error; if truthy response then JBool true else JNull].

Definition create_callback (error response : jsval) : completion (list jsval) :=
  bind (if is_null error
        then bind (get_prop response "ok") (fun ok => Normal (is_true ok))
        else Normal false)
       (fun acknowledged =>
          Normal [error; if acknowledged then JBool true else response]).

Definition destroy_callback (error response : jsval) : completion (list jsval) :=
  bind (if truthy response
        then bind (get_prop response "ok") (fun ok => Normal (is_true ok))
        else Normal false)
       (fun acknowledged =>
          Normal [error; if acknowledged then JBool true else response]).

Definition ensureFullCommit_callback (error response : jsval) : completion (list jsval) :=
  bind (if is_null error
        then bind (get_prop response "ok") (fun ok => Normal (is_true ok))
        else Normal false)
       (fun success => Normal [error; JBool success]).

Definition exists_callback (error : jsval) : completion (list jsval) :=
  bind (if truthy error
        then bind (get_prop error "error") (fun reason =>
             Normal (is_string reason "not_found"))
        else Normal false)
       (fun not_found =>
          let error' := if not_found then JNull else error in
          let exists_ := if not_found then false else true in
          Normal [error'; if is_null error' then JBool exists_ else JNull]).

Definition purge_callback (error response : jsval) : completion (list jsval) :=
  if truthy error then Normal [error; JNull]
  else bind (get_prop response "purged") (fun purged => Normal [error; purged]).

Definition revisionLimit_callback (limit : jsval) (error response : jsval)
  : completion (list jsval) :=
  if truthy error then Normal [error; JNull]
  else if is_null limit then Normal [JNull; response]
  else Normal [JNull; JBool true].

Definition rows_callback (error response : jsval) : completion (list jsval) :=
  if is_null error then
    bind (info_of response) (fun info =>
    bind (get_prop response "rows") (fun rows =>
    Normal [error; info; rows]))
  else Normal [error; JNull; JNull].


(** The arguments a handler passes to [target] when the dispatcher calls
    it with (error, response). *)
Definition arguments (fuel : nat) (h : handler) (error response : jsval)
  : option (completion (list jsval)) :=
  match h with
  | Direct _ => Some (Normal [error; response])
  | AllDocuments _ => allDocuments_callback fuel error response
  | Started _ => Some (started_callback error response)
  | Create _ => Some (create_callback error response)
  | Destroy _ => Some (destroy_callback error response)
  | EnsureFullCommit _ => Some (ensureFullCommit_callback error response)
  | Exists _ => Some (exists_callback error)
  | Purge _ => Some (purge_callback error response)
  | RevisionLimit limit _ => Some (revisionLimit_callback limit error response)
  | Rows _ => Some (rows_callback error response)
  end.

(** The same for the callbacks of the connection's own methods. *)
Definition connection_arguments (fuel : nat) (h : connection_callback)
           (error response : jsval) : option (completion (list jsval)) :=
  match h with
  | GetVersion _ => Some (getVersion_callback error response)
  | ListDatabases _ noCouchRelated =>
      listDatabases_callback fuel noCouchRelated error response
  end.

(** *** [Database.prototype.document] *)

(** The constructor [document] picks. *)
Inductive constructor : Type := Document | Design.

(** [new Doc(docId || null, revision || null, this._connection, this)] *)
Record document_handle : Type := {
  Doc : constructor;
  id : jsval;
  revision : jsval
}.

(** [/^_design\//] *)
Definition design_id : RegExp.regexp :=
  {| RegExp.alternatives := [ RegExp.Bol :: RegExp.literal "_design/" ];
     RegExp.ignoreCase := false |}.

(** [Database.prototype.document].  The ids covered are strings,
    numbers, booleans, null and [undefined], of which only strings have
    [match]; an object that carries a callable [match] of its own would
    have it called, which this embedding does not follow. *)
Definition document (docId revision : jsval) : completion document_handle :=
  bind (if truthy docId then
          match docId with
          | JStr s => Normal (RegExp.matches s design_id)
          | _ => Throw (TypeError "Object has no method 'match'")
          end
        else Normal false)
       (fun is_design =>
          Normal {| Doc := if is_design then Design else Document;
                    id := js_or docId JNull;
                    revision := js_or revision JNull |}).

(** *** The methods: the request description each hands to
    [this._connection.request] *)

Record database : Type := {
  _name : jsval;
  _connection : options
}.

Definition name (this : database) : jsval := _name this.

Definition describe (m : string) (p : jsval) (b : jsval) (k : handler)
  : properties handler :=
  {| method := JStr m; path := p; headers := JUndefined; body := b; callback := k |}.

(** Strict mode ([database.js] opens with the ['use strict'] directive):
    an assignment to an identifier that is neither bound in an enclosing
    scope nor a property of the global object throws. *)
Definition strict_assign (scope : list string) (x : string) : completion unit :=
  if existsb (String.eqb x) scope then Normal tt
  else Throw (ReferenceError (x ++ " is not defined")).

(** The bindings around the body of [view]: its parameters and [var]
    declarations, the [var] declarations of the module, and the
    parameters of the module wrapper. *)
Definition view_bindings : list string :=
  ["design"; "view"; "paramsOrCallback"; "callback"; "params"; "key"].
Definition module_bindings : list string :=
  ["querystring"; "Document"; "Design"; "Database";
   "exports"; "require"; "module"; "__filename"; "__dirname"].

(** The targets of the [var] declarations in the body of [view], as
    written: [var params], [var key], [var paramsOrCallback[key]].  A
    declaration binds an identifier; any other target is a syntax error. *)
Inductive declaration_target : Type :=
| Identifier (x : string)
| Member (object key : string).

Definition view_var_targets : list declaration_target :=
  [Identifier "params"; Identifier "key"; Member "paramsOrCallback" "key"].

Definition declarable (t : declaration_target) : bool :=
  match t with
  | Identifier _ => true
  | Member _ _ => false
  end.

Definition view_parses : bool := forallb declarable view_var_targets.

Section Methods.

Variable querystring_stringify : jsval -> string.
Variable JSON_stringify : jsval -> string.
Variable JSON_parse : string -> completion jsval.

(** The names of the properties of the global object. *)
Variable global : list string.

Variable this : database.

Definition allDocuments (paramsOrCallback callback : jsval) : properties handler :=
  let params := if is_type paramsOrCallback "object"
                then "?" ++ querystring_stringify paramsOrCallback
                else EmptyString in
  let callback := js_or callback paramsOrCallback in
  describe "GET" (JStr (to_string (name this) ++ "/_all_docs" ++ params))
           JUndefined (AllDocuments callback).


Definition compact (designOrCallback callback : jsval) : properties handler :=
  let design := if truthy callback then designOrCallback else JUndefined in
  let callback := js_or callback designOrCallback in
  describe "POST"
           (JStr (to_string (name this) ++ "/_compact" ++
                  (if truthy design then "/" ++ to_string design else EmptyString)))
           JUndefined (Started callback).




Definition exists_ (callback : jsval) : properties handler :=
  describe "GET" (_name this) JUndefined (Exists callback).

Definition info (callback : jsval) : properties handler :=
  describe "GET" (_name this) JUndefined (Direct callback).

Definition list_ (design list viewOrOtherDesign viewOrParamsOrCallback
                  paramsOrCallback callback : jsval) : properties handler :=
  let params := if is_type viewOrParamsOrCallback "object"
                then "?" ++ querystring_stringify viewOrParamsOrCallback
                else if is_type paramsOrCallback "object"
                     then "?" ++ querystring_stringify paramsOrCallback
                     else EmptyString in
  let view := if is_type viewOrParamsOrCallback "string"
              then viewOrParamsOrCallback
              else viewOrOtherDesign in
  let otherDesign := if is_type viewOrParamsOrCallback "string"
                     then "/" ++ to_string viewOrOtherDesign
                     else EmptyString in
  let path := to_string (name this) ++ "/_design/" ++ to_string design ++
              "/_list/" ++ to_string list ++ otherDesign ++ "/" ++
              to_string view ++ params in
  let callback := js_or (js_or callback paramsOrCallback) viewOrParamsOrCallback in
  describe "GET" (JStr path) JUndefined (Direct callback).


Definition revisionLimit (limitOrCallback callback : jsval) : properties handler :=
  let limit := if truthy callback then limitOrCallback else JNull in
  let callback := js_or callback limitOrCallback in
  describe (if negb (is_null limit) then "PUT" else "GET")
           (JStr (to_string (_name this) ++ "/_revs_limit"))
           (if negb (is_null limit) then JStr (to_string limit) else JUndefined)
           (RevisionLimit limit callback).

Definition show (design show docIdOrQueryOrCallback queryOrCallback callback : jsval)
  : properties handler :=
  let docId := if is_type docIdOrQueryOrCallback "string"
               then "/" ++ to_string docIdOrQueryOrCallback
               else EmptyString in
  let callback := js_or (js_or callback queryOrCallback) docIdOrQueryOrCallback in
  let query := if is_type docIdOrQueryOrCallback "object"
               then "?" ++ querystring_stringify docIdOrQueryOrCallback
               else if is_type queryOrCallback "object"
                    then "?" ++ querystring_stringify queryOrCallback
                    else EmptyString in
  describe "GET"
           (JStr (to_string (_name this) ++ "/_design/" ++ to_string design ++
                  "/_show/" ++ to_string show ++ docId ++ query))
           JUndefined (Direct callback).

Definition temporaryView (map reduceOrParamsOrCallback paramsOrCallback callback : jsval)
  : properties handler :=
  let reduce := if is_type reduceOrParamsOrCallback "string"
                then reduceOrParamsOrCallback
                else JNull in
  let params := if is_type reduceOrParamsOrCallback "object"
                then reduceOrParamsOrCallback
                else paramsOrCallback in
  let callback := js_or (js_or callback paramsOrCallback) reduceOrParamsOrCallback in
  let params := querystring_stringify params in
  let body := ([("map", map)] ++
               (if negb (is_null reduce) then [("reduce", reduce)] else []))%list in
  describe "POST"
           (JStr (to_string (name this) ++ "/_temp_view" ++
                  (if truthy (JStr params) then "?" ++ params else EmptyString)))
           (JObj body) (Rows callback).

(** [for (var key in p) p[key] = JSON.stringify(p[key]);] on the value
    [JSON.parse] returned: the own properties of an object, the elements
    of an array, nothing otherwise. *)
Definition stringify_values (p : jsval) : jsval :=
  match p with
  | JObj fields =>
      JObj (List.map (fun kv => (fst kv, JStr (JSON_stringify (snd kv)))) fields)
  | JArr elems => JArr (List.map (fun v => JStr (JSON_stringify v)) elems)
  | _ => p
  end.

(** The body of [view], reading [var paramsOrCallback[key] = e] as the
    assignment [paramsOrCallback[key] = e]; [scope] is the set of
    identifiers an assignment can resolve. *)
Definition view_body (scope : list string)
           (design view paramsOrCallback callback : jsval)
  : completion (properties handler) :=
  bind (if is_type paramsOrCallback "object" then
          bind (JSON_parse (JSON_stringify paramsOrCallback)) (fun copy =>
            let encoded := stringify_values copy in
            Normal (encoded, "?" ++ querystring_stringify encoded))
        else Normal (paramsOrCallback, EmptyString))
       (fun resolved =>
          let paramsOrCallback := fst resolved in
          let params := snd resolved in
          let path := to_string (name this) ++ "/_design/" ++ to_string design ++
                      "/_view/" ++ to_string view in
          bind (strict_assign scope "path") (fun _ =>
          let callback := js_or callback paramsOrCallback in
          Normal (describe "GET" (JStr (path ++ params)) JUndefined (Rows callback)))).

Definition view := view_body (view_bindings ++ module_bindings ++ global)%list.

End Methods.

End Database.

(* ================================================================= *)
(** ** design.js: the views of a design document *)

Module DesignView.
Import JS DesignDoc.
Local Open Scope string_scope.

(** [this._body.views]: a field of the body beside [shows]. *)
Definition views_of (this : design) : jsval :=
  obj_get (other_fields (_body this)) "views".

(** [this._body.views = v] *)
Definition with_views (this : design) (v : jsval) : design :=
  {| _id := _id this;
     _revision := _revision this;
     _body := {| shows := shows (_body this);
                 other_fields := obj_set (other_fields (_body this)) "views" v |} |}.

(** [Design.prototype.view].  The result is [None] where the body holds
    something this embedding has no value for: a truthy [views] that is
    not a plain object, or an entry [views[name]] that is an array, a
    function, an Error or a member of Object.prototype (the stores
    [.map = map] and [.reduce = reduce] would then land on that object).
    A truthy primitive entry is kept: outside strict mode a store on a
    primitive is dropped. *)
Definition view (this : design) (name : string) (map reduce : jsval)
  : option (show_result * design) :=
  if truthy map then
    match js_or (views_of this) (JObj []) with
    | JObj table =>
        match js_or (obj_get table name) (JObj []) with
        | JObj entry =>
            let entry := obj_set entry "map" map in
            let entry := if truthy reduce
                         then obj_set entry "reduce" reduce
                         else entry in
            Some (This, with_views this (JObj (obj_set table name (JObj entry))))
        | JBool b => Some (This, with_views this (JObj (obj_set table name (JBool b))))
        | JNum n => Some (This, with_views this (JObj (obj_set table name (JNum n))))
        | JStr t => Some (This, with_views this (JObj (obj_set table name (JStr t))))
        | _ => None
        end
    | _ => None
    end
  else
    if truthy (views_of this) then
      match views_of this with
      | JObj table => Some (Value (obj_get table name), this)
      | _ => None
      end
    else Some (Value JUndefined, this).

End DesignView.

(* ================================================================= *)
(** ** Shapes of the data the server sends *)

Module Shapes.
Import JS.
Local Open Scope string_scope.

(** A row of [_all_docs] for the document [id] at revision [rev]. *)
Definition row (entry : string * jsval) : jsval :=
  JObj [("id", JStr (fst entry)); ("key", JStr (fst entry));
        ("value", JObj [("rev", snd entry)])].

(** The answer of [_all_docs]. *)
Definition all_docs (total offset : jsval) (entries : list (string * jsval)) : jsval :=
  JObj [("total_rows", total); ("offset", offset);
        ("rows", JArr (List.map row entries))].

(** [documents[id] = rev], row after row. *)
Definition record_revision (documents : list (string * jsval))
           (entry : string * jsval) : list (string * jsval) :=
  obj_set documents (fst entry) (snd entry).

(** The last entry for [id], if any. *)
Definition last_revision (entries : list (string * jsval)) (id : string)
  : option jsval :=
  match find (fun entry => String.eqb id (fst entry)) (rev entries) with
  | Some entry => Some (snd entry)
  | None => None
  end.

End Shapes.

(* ================================================================= *)
(** ** The calls of the methods *)

Module Calls.
Import JS Nodecouch Database.

(** A call of a method of the database handle that hands a request to
    the connection ([view] never does). *)
Inductive call : Type :=
| AllDocumentsCall (paramsOrCallback callback : jsval)
| CleanupCall (callback : jsval)
| CompactCall (designOrCallback callback : jsval)
| CreateCall (callback : jsval)
| DestroyCall (callback : jsval)
| EnsureFullCommitCall (callback : jsval)
| ExistsCall (callback : jsval)
| InfoCall (callback : jsval)
| ListCall (design list viewOrOtherDesign viewOrParamsOrCallback
            paramsOrCallback callback : jsval)
| PurgeCall (documents callback : jsval)
| RevisionLimitCall (limitOrCallback callback : jsval)
| ShowCall (design show docIdOrQueryOrCallback queryOrCallback callback : jsval)
| TemporaryViewCall (map reduceOrParamsOrCallback paramsOrCallback callback : jsval).







(** The caller's function a callback of the connection ends up
    calling. *)
Definition connection_target (h : connection_callback) : jsval :=
  match h with
  | GetVersion cb | ListDatabases cb _ => cb
  end.


End Calls.

(* ================================================================= *)
(** ** The vocabulary of the specification *)

Module Spec.
Import JS.
Local Open Scope string_scope.

(** The six recognized verbs. *)
Definition verbs : list string := ["GET"; "PUT"; "POST"; "DELETE"; "HEAD"; "COPY"].

Fixpoint uppercase (s : string) : string :=
  match s with
  | EmptyString => EmptyString
  | String c rest => String (RegExp.upper c) (uppercase rest)
  end.

(** A string equal, case-insensitively, to one of the verbs. *)
Definition recognized (s : string) : bool :=
  existsb (String.eqb (uppercase s)) verbs.

(** [w], written in upper case, is a prefix of [s] / occurs in [s], letter
    case ignored. *)
Fixpoint starts_with (w s : string) : bool :=
  match w, s with
  | EmptyString, _ => true
  | String c w', String a s' =>
      Ascii.eqb (RegExp.upper c) (RegExp.upper a) && starts_with w' s'
  | String _ _, EmptyString => false
  end.

Fixpoint occurs_in (w s : string) : bool :=
  starts_with w s ||
  match s with
  | String _ s' => occurs_in w s'
  | EmptyString => false
  end.

(** An object with a truthy [error] field. *)
Definition has_truthy_error (content : jsval) : bool :=
  match content with
  | JObj fields => truthy (obj_get fields "error")
  | _ => false
  end.

(** A domain error whose [error] field equals ["not_found"]. *)
Definition not_found (error : jsval) : bool :=
  match error with
  | JObj fields => is_string (obj_get fields "error") "not_found"
  | _ => false
  end.

(** The classification of a response body in the words of the
    specification: a parse failure is the error; a parsed body with a
    truthy [error] field is the error; any other parsed body is the
    response. *)
Definition stated_classification (parsed : completion jsval) : jsval * jsval :=
  match parsed with
  | Throw parseFailure => (parseFailure, JNull)
  | Normal parsedObject =>
      if has_truthy_error parsedObject then (parsedObject, JNull)
      else (JNull, parsedObject)
  end.

(** A name that begins with an underscore. *)
Definition couch_related (name : string) : bool := String.prefix "_" name.

End Spec.

(* ================================================================= *)
(** ** Facts about the primitive operations *)

Module JSFacts.
Import JS.
Local Open Scope string_scope.

Lemma truthy_not_null (v : jsval) : truthy v = true -> is_null v = false.
Proof. destruct v; simpl; intros H; try reflexivity; discriminate H. Qed.

Lemma own_obj_put (fields : list (string * jsval)) (k : string) (v : jsval) :
  own (obj_put fields k v) k = Some v.
Proof.
  induction fields as [|[k' v'] rest IH]; simpl.
  - now rewrite String.eqb_refl.
  - destruct (String.eqb k k') eqn:E; simpl; rewrite E; auto.
Qed.

Lemma obj_get_set_own (fields : list (string * jsval)) (k : string) (v : jsval) :
  k <> "__proto__" -> obj_get (obj_set fields k v) k = v.
Proof.
  intros Hk. unfold obj_get, obj_set.
  destruct (own fields k) eqn:E.
  - now rewrite own_obj_put.
  - apply String.eqb_neq in Hk. rewrite Hk. now rewrite own_obj_put.
Qed.

Lemma obj_get_absent (fields : list (string * jsval)) (k : string) :
  own fields k = None -> inherited k = false -> obj_get fields k = JUndefined.
Proof. intros Ho Hi. unfold obj_get. now rewrite Ho, Hi. Qed.

Lemma nth_middle_elem {A} (kept : list A) (x : A) (todo : list A) (d : A) :
  nth (length kept) (kept ++ x :: todo)%list d = x.
Proof. induction kept; simpl; auto. Qed.

Lemma nth_at_end {A} (kept : list A) (d : A) : nth (length kept) kept d = d.
Proof. induction kept; simpl; auto. Qed.

Lemma remove_nth_middle {A} (kept : list A) (x : A) (todo : list A) :
  remove_nth (length kept) (kept ++ x :: todo)%list = (kept ++ todo)%list.
Proof. induction kept; simpl; congruence. Qed.

End JSFacts.

Module RegExpFacts.
Import RegExp.
Local Open Scope string_scope.

(** Without case folding a literal matches exactly its own prefix. *)
Lemma match_here_literal_cs (w s : string) (b : bool) :
  match_here false (literal w) b s = String.prefix w s.
Proof.
  revert s b. induction w as [|c w IH]; intros s b; simpl.
  - now destruct s.
  - destruct s as [|a s]; [reflexivity|].
    cbn -[Ascii.eqb]. rewrite Ascii.eqb_sym.
    destruct (Ascii.eqb a c) eqn:E.
    + apply Ascii.eqb_eq in E. subst a.
      destruct (ascii_dec c c); [|congruence]. simpl. apply IH.
    + apply Ascii.eqb_neq in E.
      destruct (ascii_dec c a); [congruence|]. reflexivity.
Qed.

(** With case folding a literal matches the spellings of itself, and an
    optional character after it changes nothing. *)
Lemma match_here_literal (w s : string) (b : bool) :
  match_here true (literal w) b s = Spec.starts_with w s.
Proof.
  revert s b. induction w as [|c w IH]; intros s b; [reflexivity|].
  destruct s as [|a s]; [reflexivity|].
  cbn -[char_eq upper]. unfold char_eq. now rewrite IH.
Qed.

Lemma match_here_literal_optional (w s : string) (y : ascii) (b : bool) :
  match_here true (literal w ++ [Opt y])%list b s = Spec.starts_with w s.
Proof.
  revert s b. induction w as [|c w IH]; intros s b.
  - cbn [literal app match_here Spec.starts_with]. apply orb_true_r.
  - destruct s as [|a s]; [reflexivity|].
    cbn -[char_eq upper]. unfold char_eq. now rewrite IH.
Qed.

Lemma matches_at_start (r : regexp) (s : string) :
  match_at r true s = true -> matches s r = true.
Proof. intros H. unfold matches. destruct s; simpl; now rewrite H. Qed.

(** An alternative that opens with [^] cannot match past the start. *)
Lemma search_anchored_later (ci : bool) (ts : list term) (s : string) :
  search {| alternatives := [Bol :: ts]; ignoreCase := ci |} false s = false.
Proof. induction s as [|a s IH]; simpl; auto. Qed.

Lemma matches_anchored (ci : bool) (ts : list term) (s : string) :
  matches s {| alternatives := [Bol :: ts]; ignoreCase := ci |}
  = match_here ci ts true s.
Proof.
  unfold matches.
  destruct s as [|a s]; cbn [search]; [|rewrite search_anchored_later];
    unfold match_at; cbn [existsb alternatives ignoreCase match_here andb];
    now rewrite !orb_false_r.
Qed.

End RegExpFacts.

(* ================================================================= *)
(** ** The request dispatcher *)

Module DispatcherFacts.
Import JS Nodecouch.
Local Open Scope string_scope.

(** Peel a string off character by character along a known upper-case
    spelling. *)
Ltac spell H :=
  repeat match type of H with
         | Spec.uppercase ?s = _ =>
             destruct s as [|? s]; cbn [Spec.uppercase] in H;
             [ try discriminate H | try discriminate H; injection H as ? H ]
         end.

Ltac fold_case :=
  repeat match goal with
         | E : RegExp.upper _ = _ |- _ => rewrite E; clear E
         end.

Lemma recognized_matches (s : string) :
  Spec.recognized s = true -> RegExp.matches s methodMatch = true.
Proof.
  unfold Spec.recognized, Spec.verbs. cbn [existsb].
  rewrite !orb_true_iff. intros H.
  apply RegExpFacts.matches_at_start.
  unfold RegExp.match_at, methodMatch.
  decompose [or] H; clear H;
    match goal with
    | E : String.eqb _ _ = true |- _ => apply String.eqb_eq in E; spell E
    | E : false = true |- _ => discriminate E
    end;
    cbn -[RegExp.upper]; fold_case; reflexivity.
Qed.

(** What the pattern accepts: a string that starts with GET, or in which
    PUT, POST, DELETE, HEAD or COP occurs, letter case ignored. *)
Lemma search_methodMatch (s : string) (at_start : bool) :
  RegExp.search methodMatch at_start s
  = (at_start && Spec.starts_with "GET" s)
    || Spec.occurs_in "PUT" s || Spec.occurs_in "POST" s
    || Spec.occurs_in "DELETE" s || Spec.occurs_in "HEAD" s
    || Spec.occurs_in "COP" s.
Proof.
  assert (Hat : forall b t,
             RegExp.match_at methodMatch b t
             = (b && Spec.starts_with "GET" t)
               || Spec.starts_with "PUT" t || Spec.starts_with "POST" t
               || Spec.starts_with "DELETE" t || Spec.starts_with "HEAD" t
               || Spec.starts_with "COP" t).
  { intros b t. unfold RegExp.match_at, methodMatch.
    cbn [existsb RegExp.alternatives RegExp.ignoreCase].
    cbn [RegExp.match_here].
    rewrite !RegExpFacts.match_here_literal.
    rewrite (RegExpFacts.match_here_literal_optional "COP" t "Y" b).
    now rewrite orb_false_r, !orb_assoc. }
  revert at_start. induction s as [|a s IH]; intros at_start.
  - cbn [RegExp.search]. rewrite Hat. cbn [Spec.occurs_in].
    now rewrite !orb_false_r.
  - cbn [RegExp.search]. rewrite Hat, IH. cbn [Spec.occurs_in andb orb].
    generalize (Spec.starts_with "GET" (String a s)),
      (Spec.starts_with "PUT" (String a s)), (Spec.starts_with "POST" (String a s)),
      (Spec.starts_with "DELETE" (String a s)), (Spec.starts_with "HEAD" (String a s)),
      (Spec.starts_with "COP" (String a s)),
      (Spec.occurs_in "PUT" s), (Spec.occurs_in "POST" s),
      (Spec.occurs_in "DELETE" s), (Spec.occurs_in "HEAD" s),
      (Spec.occurs_in "COP" s).
    intros g p po d h c p' po' d' h' c'.
    destruct at_start, g, p, po, d, h, c, p', po', d', h', c'; reflexivity.
Qed.

Lemma request_method_characterized (s : string) :
  request_method (JStr s)
  = if Spec.starts_with "GET" s
       || Spec.occurs_in "PUT" s || Spec.occurs_in "POST" s
       || Spec.occurs_in "DELETE" s || Spec.occurs_in "HEAD" s
       || Spec.occurs_in "COP" s
    then JStr s else JStr "GET".
Proof.
  unfold request_method, string_matches, RegExp.matches.
  cbn [typeof]. now rewrite String.eqb_refl, search_methodMatch.
Qed.

(** The half of the verb rule the code keeps: a recognized verb, in any
    letter case, is sent as given. *)
Lemma request_method_recognized (s : string) :
  Spec.recognized s = true -> request_method (JStr s) = JStr s.
Proof.
  intros H. unfold request_method, string_matches. cbn [typeof].
  now rewrite (recognized_matches s H).
Qed.

(** A method that is absent or not a string is replaced by GET. *)
Lemma request_method_not_string (m : jsval) :
  typeof m <> "string" -> request_method m = JStr "GET".
Proof.
  intros H. unfold request_method, string_matches.
  apply String.eqb_neq in H. now rewrite H.
Qed.

(** C1.  The dispatcher does not substitute GET for every string outside
    the six verbs: the pattern is not anchored at its end and only its
    first alternative is anchored at the start, so COP (a proper prefix of
    COPY), INPUT (which contains PUT) and GETAWAY (which starts with GET)
    are none of the six verbs and are still sent as given. *)
Theorem request_method_sends_unrecognized :
  Spec.recognized "COP" = false /\ request_method (JStr "COP") = JStr "COP" /\
  Spec.recognized "INPUT" = false /\ request_method (JStr "INPUT") = JStr "INPUT" /\
  Spec.recognized "GETAWAY" = false /\ request_method (JStr "GETAWAY") = JStr "GETAWAY".
Proof. repeat split; reflexivity. Qed.

(** C2.  On an ['error'] event the listener calls [this._responseHandler],
    which no connection has: the call throws and the callback of the
    request is never invoked. *)
Theorem error_event_never_reaches_callback
        (JSON_parse : string -> completion jsval)
        (member_call : string -> continuation -> jsval -> jsval -> run)
        (properties : properties continuation) (error : jsval) :
  has_member "_responseHandler" = false /\
  invoked (dispatch JSON_parse member_call properties (Error error)) = [] /\
  thrown (dispatch JSON_parse member_call properties (Error error))
  = Some (TypeError "Object #<Object> has no method '_responseHandler'").
Proof. repeat split; reflexivity. Qed.

(** The call inside the [try] block comes first; the [catch] block adds
    a second call only when the first one throws. *)
Lemma first_call_of_try (callback : continuation) (a b : jsval) :
  exists rest,
    invoked (try_catch (call callback a b) (fun error => call callback error JNull))
    = (a, b) :: rest /\
    (callback a b = None ->
     rest = [] /\
     thrown (try_catch (call callback a b) (fun error => call callback error JNull))
     = None).
Proof.
  unfold try_catch. cbn [thrown invoked call].
  destruct (callback a b) as [e|] eqn:E.
  - exists [(e, JNull)]. split; [reflexivity|]. intros H. discriminate H.
  - exists []. cbn [invoked thrown call]. now rewrite E.
Qed.

(** C3, as stated, fails on the body [null]: it is valid JSON, reading
    [content.error] of it throws, and the callback receives that TypeError
    where the stated rule has (null, null). *)
Lemma end_listener_null_body :
  invoked (end_listener (Normal JNull) (fun _ _ => None))
  = [(TypeError "Cannot read property 'error' of null", JNull)] /\
  invoked (end_listener (Normal JNull) (fun _ _ => None))
  <> [Spec.stated_classification (Normal JNull)].
Proof. split; [reflexivity | discriminate]. Qed.

(** C3, amended.  The first call of the callback at ['end'] is: (the
    exception, null) when [JSON.parse] throws; (a TypeError, null) when
    the body parses to null; (the parsed body, null) when the body parses
    to an object with a truthy [error] field; (null, the parsed body)
    otherwise.  Exactly one of its two arguments is non-null, and when the
    callback returns normally it is the only call. *)
Theorem end_listener_classifies (parsed : completion jsval) (callback : continuation) :
  parsed <> Throw JNull ->
  exists error response rest,
    invoked (end_listener parsed callback) = (error, response) :: rest /\
    (callback error response = None ->
     rest = [] /\ thrown (end_listener parsed callback) = None) /\
    is_null error = negb (is_null response) /\
    match parsed with
    | Throw parseFailure => error = parseFailure /\ response = JNull
    | Normal JUndefined | Normal JNull =>
        (exists message, error = TypeError message) /\ response = JNull
    | Normal content =>
        if Spec.has_truthy_error content
        then error = content /\ response = JNull
        else error = JNull /\ response = content
    end.
Proof.
  intros Hparsed.
  destruct parsed as [content|failure].
  - destruct content;
      try (cbn [end_listener get_prop is_null];
           do 3 eexists; split; [reflexivity|];
           split; [auto|]; split; [reflexivity|]; eauto; fail);
      cbn [end_listener get_prop Spec.has_truthy_error truthy negb].
    all: try match goal with
             | |- context [truthy (obj_get ?f ?k)] => destruct (truthy (obj_get f k))
             end.
    all: cbn [negb];
      match goal with
      | |- context [try_catch (call ?k ?a ?b) _] =>
          destruct (first_call_of_try k a b) as (rest & Hcalls & Honly);
          exists a, b, rest
      end;
      (split; [exact Hcalls|]); (split; [exact Honly|]);
      (split; [reflexivity|]); split; reflexivity.
  - cbn [end_listener]. exists failure, JNull, [].
    split; [reflexivity|]. split; [auto|]. split; [|auto].
    destruct failure; try reflexivity. congruence.
Qed.

Lemma end_listener_classifies_witness :
  exists error response rest,
    invoked (end_listener (Normal (JObj [("error", JStr "not_found")]))
                          (fun _ _ => None))
    = (error, response) :: rest /\
    error = JObj [("error", JStr "not_found")] /\ response = JNull.
Proof.
  destruct (end_listener_classifies
              (Normal (JObj [("error", JStr "not_found")])) (fun _ _ => None))
    as (error & response & rest & Hcalls & _ & _ & Hshape).
  - discriminate.
  - exists error, response, rest. split; [exact Hcalls | exact Hshape].
Defined.

End DispatcherFacts.

(* ================================================================= *)
(** ** The callbacks of the handles *)

Module HandlerFacts.
Import JS Nodecouch Database.
Local Open Scope string_scope.

(** *** The loop of [listDatabases] *)

Lemma first_character_is_underscore (n : string) :
  n <> EmptyString ->
  is_string (JStr (String.substring 0 1 n)) "_" = Spec.couch_related n.
Proof.
  destruct n as [|c rest]; [congruence|]. intros _.
  unfold Spec.couch_related. cbn [is_string String.substring String.prefix].
  destruct (ascii_dec "_" c) as [<-|Hc].
  - now destruct rest.
  - cbn [String.eqb]. destruct (Ascii.eqb c "_") eqn:E; [|reflexivity].
    apply Ascii.eqb_eq in E. congruence.
Qed.

Lemma truthy_name (n : string) : n <> EmptyString -> truthy (JStr n) = true.
Proof.
  intros H. cbn [truthy]. apply String.eqb_neq in H. now rewrite H.
Qed.

(** The loop at index [length kept], with [kept] behind it and [todo]
    ahead: it ends with the names of [todo] that are not couch related
    appended to [kept]. *)
Lemma strip_couch_related_names (todo kept : list string) (fuel : nat) :
  Forall (fun n => n <> EmptyString) todo ->
  length todo < fuel ->
  strip_couch_related fuel (JArr (map JStr (kept ++ todo))) (length kept)
  = Some (Normal (JArr (map JStr
       (kept ++ filter (fun n => negb (Spec.couch_related n)) todo)))).
Proof.
  revert kept fuel.
  induction todo as [|n todo IH]; intros kept fuel Hnames Hfuel;
    (destruct fuel as [|fuel]; [inversion Hfuel|]).
  - cbn [strip_couch_related js_index filter].
    rewrite app_nil_r.
    rewrite <- (length_map JStr kept) at 1.
    now rewrite JSFacts.nth_at_end.
  - inversion Hnames as [|? ? Hn Htodo]; subst.
    assert (Hnth : nth (length kept)
                       (map JStr kept ++ JStr n :: map JStr todo)%list JUndefined
                   = JStr n)
      by (rewrite <- (length_map JStr kept) at 1; apply JSFacts.nth_middle_elem).
    assert (Hsplice : remove_nth (length kept)
                        (map JStr kept ++ JStr n :: map JStr todo)%list
                      = map JStr (kept ++ todo)%list)
      by (rewrite <- (length_map JStr kept) at 1;
          rewrite JSFacts.remove_nth_middle; now rewrite map_app).
    cbn [strip_couch_related js_index].
    rewrite map_app. cbn [map]. rewrite !Hnth.
    rewrite (truthy_name n Hn).
    cbn [substr_0_1]. rewrite (first_character_is_underscore n Hn).
    cbn [filter].
    destruct (Spec.couch_related n); cbn [negb].
    + cbn [splice_1]. rewrite Hsplice.
      apply IH; [assumption | simpl in Hfuel; lia].
    + replace (map JStr kept ++ JStr n :: map JStr todo)%list
        with (map JStr ((kept ++ [n]) ++ todo))%list
        by (rewrite <- app_assoc, map_app; reflexivity).
      replace (S (length kept)) with (length (kept ++ [n])%list)
        by (rewrite length_app; simpl; lia).
      rewrite (IH (kept ++ [n])%list fuel Htodo); [|simpl in Hfuel; lia].
      now rewrite <- app_assoc.
Qed.

(** The callback alone: with [noCouchRelated === true], a delivered list of database
    names comes back without the names that begin with an underscore, the
    others in their order; [fuel] beyond the length of the list is enough
    for the loop. *)
Theorem listDatabases_strips_couch_related (names : list string) (fuel : nat) :
  Forall (fun n => n <> EmptyString) names ->
  length names < fuel ->
  listDatabases_callback fuel (JBool true) JNull (JArr (map JStr names))
  = Some (Normal [JNull;
                  JArr (map JStr
                    (filter (fun n => negb (Spec.couch_related n)) names))]).
Proof.
  intros Hnames Hfuel.
  unfold listDatabases_callback. cbn [is_null is_true negb andb].
  pose proof (strip_couch_related_names names [] fuel Hnames Hfuel) as Hloop.
  cbn [app length] in Hloop. now rewrite Hloop.
Qed.

(** The loop test is [response[i]]: an empty name ends the loop, and
    what follows it is kept. *)
Lemma listDatabases_stops_at_empty_name :
  listDatabases_callback 3 (JBool true) JNull
                         (JArr [JStr EmptyString; JStr "_users"])
  = Some (Normal [JNull; JArr [JStr EmptyString; JStr "_users"]]).
Proof. reflexivity. Qed.

Lemma listDatabases_scenario :
  listDatabases_callback 4 (JBool true) JNull
                         (JArr [JStr "a"; JStr "_replicator"; JStr "b"])
  = Some (Normal [JNull; JArr [JStr "a"; JStr "b"]]).
Proof.
  apply (listDatabases_strips_couch_related ["a"; "_replicator"; "b"] 4).
  - repeat constructor; discriminate.
  - simpl; lia.
Defined.

(** *** Errors through the callbacks *)

(** What each callback passes on when the dispatcher delivers an error
    with a null response. *)
Lemma arguments_on_error (fuel : nat) (h : handler) (error : jsval) :
  truthy error = true ->
  arguments fuel h error JNull
  = Some (Normal
      match h with
      | Exists _ => if Spec.not_found error then [JNull; JBool false]
                    else [error; JNull]
      | EnsureFullCommit _ => [error; JBool false]
      | AllDocuments _ => [error; JUndefined; JObj []]
      | Rows _ => [error; JNull; JNull]
      | _ => [error; JNull]
      end).
Proof.
  intros Htruthy. pose proof (JSFacts.truthy_not_null error Htruthy) as Hnull.
  destruct h; cbn [arguments]; try reflexivity;
    unfold allDocuments_callback, started_callback, create_callback,
      destroy_callback, ensureFullCommit_callback, purge_callback,
      revisionLimit_callback, rows_callback;
    rewrite ?Hnull, ?Htruthy; try reflexivity.
  unfold exists_callback. rewrite Htruthy.
  destruct error; try discriminate Htruthy; cbn [get_prop bind Spec.not_found];
    try (cbn [is_string]; rewrite ?Htruthy; reflexivity).
  destruct (is_string (obj_get fields "error") "not_found"); reflexivity.
Qed.

Lemma connection_arguments_on_error (fuel : nat) (h : connection_callback)
      (error : jsval) :
  truthy error = true ->
  connection_arguments fuel h error JNull = Some (Normal [error; JNull]).
Proof.
  intros Htruthy. pose proof (JSFacts.truthy_not_null error Htruthy) as Hnull.
  destruct h; cbn [connection_arguments]; [reflexivity|].
  unfold listDatabases_callback. now rewrite Hnull.
Qed.

(** Every error the ['end'] listener delivers with a null response is
    truthy, whatever the body parsed to. *)
Lemma delivered_error_truthy (content : jsval) (k : continuation)
      (error : jsval) (rest : list (jsval * jsval)) :
  invoked (end_listener (Normal content) k) = (error, JNull) :: rest ->
  truthy error = true.
Proof.
  destruct content; cbn [end_listener get_prop]; intros H;
    try (injection H as <- _; reflexivity);
    unfold try_catch in H; cbn [call thrown invoked truthy negb] in H.
  all: try (destruct (k _ _); cbn [invoked app] in H; discriminate H).
  destruct (truthy (obj_get fields "error")); cbn [negb] in H;
    destruct (k _ _); cbn [invoked app] in H;
    first [discriminate H | injection H as <- _; reflexivity].
Qed.

End HandlerFacts.

(* ================================================================= *)
(** ** Error propagation through the handles *)

Module ErrorPropagation.
Import JS Nodecouch Database.
Local Open Scope string_scope.

(** With an error the callback of [ensureFullCommit] passes [false] as
    second argument, and the one of [allDocuments] passes [undefined]. *)
Lemma ensureFullCommit_error_second_argument :
  arguments 0 (EnsureFullCommit (JFun "cb"))
            (JObj [("error", JStr "conflict")]) JNull
  = Some (Normal [JObj [("error", JStr "conflict")]; JBool false]) /\
  JBool false <> JNull /\
  arguments 0 (AllDocuments (JFun "cb"))
            (JObj [("error", JStr "conflict")]) JNull
  = Some (Normal [JObj [("error", JStr "conflict")]; JUndefined; JObj []]) /\
  JUndefined <> JNull.
Proof. repeat split; try reflexivity; discriminate. Qed.

(** Callback by callback: an error delivered with a null response reaches the
    caller's function unchanged as first argument from every callback,
    [exists] on a not_found error apart.  The arguments after it are: null
    from most callbacks; [false] from [ensureFullCommit]; [undefined] and
    an empty object from [allDocuments]; null twice from the view
    callbacks. *)
Theorem errors_pass_through (fuel : nat) (error : jsval) :
  truthy error = true ->
  (forall h : handler,
      (forall cb, h = Exists cb -> Spec.not_found error = false) ->
      exists rest,
        arguments fuel h error JNull = Some (Normal (error :: rest)) /\
        rest = match h with
               | EnsureFullCommit _ => [JBool false]
               | AllDocuments _ => [JUndefined; JObj []]
               | Rows _ => [JNull; JNull]
               | _ => [JNull]
               end) /\
  (forall h : connection_callback,
      connection_arguments fuel h error JNull = Some (Normal [error; JNull])).
Proof.
  intros Htruthy. split.
  - intros h Hexists.
    rewrite (HandlerFacts.arguments_on_error fuel h error Htruthy).
    destruct h; try (eexists; split; reflexivity).
    rewrite (Hexists _ eq_refl). eexists; split; reflexivity.
  - intros h. now apply HandlerFacts.connection_arguments_on_error.
Qed.

Lemma errors_pass_through_witness :
  arguments 0 (Purge (JFun "cb")) (JObj [("error", JStr "conflict")]) JNull
  = Some (Normal [JObj [("error", JStr "conflict")]; JNull]) /\
  connection_arguments 0 (GetVersion (JFun "cb"))
                       (JObj [("error", JStr "conflict")]) JNull
  = Some (Normal [JObj [("error", JStr "conflict")]; JNull]).
Proof.
  destruct (errors_pass_through 0 (JObj [("error", JStr "conflict")]) eq_refl)
    as [Hhandles Hconnection].
  split.
  - destruct (Hhandles (Purge (JFun "cb"))) as (rest & Hargs & Hrest).
    + intros cb E. discriminate E.
    + rewrite Hargs, Hrest. reflexivity.
  - apply Hconnection.
Defined.

(** Callback by callback: [exists] answers (null, false) to a domain error whose [error]
    field is ["not_found"] and (null, true) to every success; every other
    callback hands an error on as its first argument, so none of them
    turns an error into a success. *)
Theorem exists_alone_reclassifies (fuel : nat) :
  (forall cb error response,
      Spec.not_found error = true ->
      arguments fuel (Exists cb) error response
      = Some (Normal [JNull; JBool false])) /\
  (forall cb response,
      arguments fuel (Exists cb) JNull response
      = Some (Normal [JNull; JBool true])) /\
  (forall h error,
      truthy error = true ->
      (forall cb, h <> Exists cb) ->
      exists rest, arguments fuel h error JNull = Some (Normal (error :: rest))) /\
  (forall h error,
      truthy error = true ->
      exists rest,
        connection_arguments fuel h error JNull = Some (Normal (error :: rest))).
Proof.
  split; [|split; [|split]].
  - intros cb error response Hnf.
    destruct error; try discriminate Hnf.
    cbn [Spec.not_found] in Hnf.
    cbn [arguments]. unfold exists_callback.
    cbn [truthy get_prop bind]. now rewrite Hnf.
  - reflexivity.
  - intros h error Htruthy Hother.
    rewrite (HandlerFacts.arguments_on_error fuel h error Htruthy).
    destruct h; try (eexists; reflexivity).
    exfalso. eapply Hother. reflexivity.
  - intros h error Htruthy.
    rewrite (HandlerFacts.connection_arguments_on_error fuel h error Htruthy).
    eexists; reflexivity.
Qed.

Lemma exists_alone_reclassifies_witness :
  arguments 0 (Exists (JFun "cb")) (JObj [("error", JStr "not_found")]) JNull
  = Some (Normal [JNull; JBool false]) /\
  exists rest,
    arguments 0 (Create (JFun "cb")) (JObj [("error", JStr "not_found")]) JNull
    = Some (Normal (JObj [("error", JStr "not_found")] :: rest)).
Proof.
  destruct (exists_alone_reclassifies 0) as (Hnf & _ & Hothers & _).
  split.
  - apply Hnf. reflexivity.
  - apply Hothers.
    + reflexivity.
    + intros cb E. discriminate E.
Defined.

End ErrorPropagation.

(* ================================================================= *)
(** ** Argument resolution and the document factory *)

Module ArgumentResolution.
Import JS Nodecouch Database.
Local Open Scope string_scope.

(** C7.  [show], [temporaryView] and [list] end in an identifier slot, a
    query slot and the callback.  Called with a mapping and a function
    only, each sends the mapping as its query, keeps its identifier
    segment out of the request and calls the function; the call is the
    same as the one with the identifier slot given as [undefined]. *)
Theorem mapping_and_callable_resolution
        (querystring_stringify : jsval -> string) (this : database)
        (design showName listName viewName mapFunction : jsval)
        (mapping : list (string * jsval)) (f : string) :
  show querystring_stringify this design showName
       (JObj mapping) (JFun f) JUndefined
  = describe "GET"
             (JStr (to_string (_name this) ++ "/_design/" ++ to_string design ++
                    "/_show/" ++ to_string showName ++
                    "?" ++ querystring_stringify (JObj mapping)))
             JUndefined (Direct (JFun f)) /\
  show querystring_stringify this design showName
       (JObj mapping) (JFun f) JUndefined
  = show querystring_stringify this design showName
         JUndefined (JObj mapping) (JFun f) /\
  temporaryView querystring_stringify this mapFunction
                (JObj mapping) (JFun f) JUndefined
  = describe "POST"
             (JStr (to_string (_name this) ++ "/_temp_view" ++
                    (if String.eqb (querystring_stringify (JObj mapping)) EmptyString
                     then EmptyString
                     else "?" ++ querystring_stringify (JObj mapping))))
             (JObj [("map", mapFunction)]) (Rows (JFun f)) /\
  temporaryView querystring_stringify this mapFunction
                (JObj mapping) (JFun f) JUndefined
  = temporaryView querystring_stringify this mapFunction
                  JUndefined (JObj mapping) (JFun f) /\
  list_ querystring_stringify this design listName viewName
        (JObj mapping) (JFun f) JUndefined
  = describe "GET"
             (JStr (to_string (_name this) ++ "/_design/" ++ to_string design ++
                    "/_list/" ++ to_string listName ++ "/" ++ to_string viewName ++
                    "?" ++ querystring_stringify (JObj mapping)))
             JUndefined (Direct (JFun f)) /\
  list_ querystring_stringify this design listName viewName
        (JObj mapping) (JFun f) JUndefined
  = list_ querystring_stringify this design listName viewName
          JUndefined (JObj mapping) (JFun f).
Proof.
  repeat split; try reflexivity.
  unfold temporaryView. cbn [is_type typeof String.eqb Ascii.eqb Bool.eqb
                             js_or truthy is_null negb app].
  now destruct (String.eqb (querystring_stringify (JObj mapping)) EmptyString).
Qed.

(** C8.  [document] picks the Design constructor exactly for an id that
    begins with [_design/], and the Document constructor for every other
    string and for an absent id. *)
Theorem document_selects_by_prefix (docId : string) (rev : jsval) :
  document (JStr docId) rev
  = Normal {| Doc := if String.prefix "_design/" docId then Design else Document;
              id := js_or (JStr docId) JNull;
              revision := js_or rev JNull |} /\
  document JUndefined rev
  = Normal {| Doc := Document; id := JNull; revision := js_or rev JNull |} /\
  document JNull rev
  = Normal {| Doc := Document; id := JNull; revision := js_or rev JNull |}.
Proof.
  repeat split; try reflexivity.
  unfold document, design_id.
  rewrite RegExpFacts.matches_anchored, RegExpFacts.match_here_literal_cs.
  destruct docId as [|c rest]; reflexivity.
Qed.

End ArgumentResolution.

(* ================================================================= *)
(** ** The view request *)

Module ViewRequest.
Import JS Nodecouch Database.
Local Open Scope string_scope.

Section View.

Variable querystring_stringify : jsval -> string.
Variable JSON_stringify : jsval -> string.
Variable JSON_parse : string -> completion jsval.
Variable this : database.

Lemma path_unbound (global : list string) :
  existsb (String.eqb "path") global = false ->
  strict_assign (view_bindings ++ module_bindings ++ global)%list "path"
  = Throw (ReferenceError "path is not defined").
Proof.
  intros Hglobal. unfold strict_assign.
  rewrite !existsb_app, Hglobal. reflexivity.
Qed.

(** What [view] would send if [path] resolved: the query values are
    replaced by their JSON texts before the query string is built, and
    the callback hands on the totals and the rows. *)
Lemma view_body_when_path_resolves (scope : list string) (f : string) :
  existsb (String.eqb "path") scope = true ->
  _name this = JStr "db" ->
  JSON_parse (JSON_stringify (JObj [("key", JStr "x")]))
  = Normal (JObj [("key", JStr "x")]) ->
  JSON_stringify (JStr "x") = String "034" ("x" ++ String "034" EmptyString) ->
  querystring_stringify
    (JObj [("key", JStr (String "034" ("x" ++ String "034" EmptyString)))])
  = "key=%22x%22" ->
  view_body querystring_stringify JSON_stringify JSON_parse this scope
            (JStr "d") (JStr "v") (JObj [("key", JStr "x")]) (JFun f)
  = Normal (describe "GET" (JStr "db/_design/d/_view/v?key=%22x%22")
                     JUndefined (Rows (JFun f))) /\
  forall rows fuel,
    arguments fuel (Rows (JFun f)) JNull
              (JObj [("total_rows", JNum 2); ("offset", JNum 0); ("rows", rows)])
    = Some (Normal [JNull; JObj [("total", JNum 2); ("offset", JNum 0)]; rows]).
Proof.
  intros Hscope Hname Hcopy Hquote Hquery. split; [|reflexivity].
  unfold view_body, strict_assign, name.
  rewrite Hscope, Hname.
  cbn [is_type typeof String.eqb Ascii.eqb Bool.eqb].
  rewrite Hcopy.
  cbn [bind stringify_values List.map fst snd].
  rewrite Hquote, Hquery. reflexivity.
Qed.

(** C4.  [view] never hands a request to the connection.  As written its
    body declares [var paramsOrCallback[key]], which does not parse; with
    that line read as the assignment it was meant to be, the strict-mode
    assignment to the undeclared [path] throws before [request] is
    reached, whatever the arguments. *)
Theorem view_throws_before_request
        (global : list string) (design view_ paramsOrCallback callback : jsval) :
  existsb (String.eqb "path") global = false ->
  view_parses = false /\
  (exists e,
      view querystring_stringify JSON_stringify JSON_parse global this
           design view_ paramsOrCallback callback = Throw e) /\
  ((is_type paramsOrCallback "object" = false \/
    exists copy, JSON_parse (JSON_stringify paramsOrCallback) = Normal copy) ->
   view querystring_stringify JSON_stringify JSON_parse global this
        design view_ paramsOrCallback callback
   = Throw (ReferenceError "path is not defined")).
Proof.
  intros Hglobal. pose proof (path_unbound global Hglobal) as Hpath.
  split; [reflexivity|].
  unfold view, view_body.
  destruct (is_type paramsOrCallback "object").
  - destruct (JSON_parse (JSON_stringify paramsOrCallback)) as [copy|e] eqn:Hcopy;
      cbn [bind fst snd]; rewrite ?Hpath; cbn [bind].
    + split; [eexists; reflexivity | reflexivity].
    + split; [eexists; reflexivity |].
      intros [H | [copy H]]; discriminate H.
  - cbn [bind fst snd]. rewrite Hpath. cbn [bind].
    split; [eexists; reflexivity | reflexivity].
Qed.

End View.

Lemma view_throws_before_request_witness :
  view (fun _ => EmptyString) (fun _ => "{}")
       (fun _ => Normal (JObj [("key", JStr "x")]))
       ["global"; "process"; "console"; "Buffer"; "setTimeout"; "JSON"; "Object"]
       {| _name := JStr "db";
          _connection := {| host := JStr "localhost"; port := JNum 5984;
                            username := JStr "foo"; password := JStr "bar" |} |}
       (JStr "d") (JStr "v") (JObj [("key", JStr "x")]) (JFun "cb")
  = Throw (ReferenceError "path is not defined").
Proof.
  apply (view_throws_before_request
           (fun _ => EmptyString) (fun _ => "{}")
           (fun _ => Normal (JObj [("key", JStr "x")]))).
  - reflexivity.
  - right. exists (JObj [("key", JStr "x")]). reflexivity.
Defined.

End ViewRequest.

(* ================================================================= *)
(** ** The show functions of a design document *)

Module DesignShows.
Import JS DesignDoc.
Local Open Scope string_scope.

(** C10, as stated, fails on the names a plain object inherits.  Setting
    the show [__proto__] stores nothing, so reading it back yields
    Object.prototype and not the content; and once the table exists, the
    never-set name [constructor] reads as the inherited function. *)
Lemma show_inherited_names :
  fst (show blank "__proto__" (Some "c")) = This /\
  fst (show (snd (show blank "__proto__" (Some "c"))) "__proto__" None)
  = Value (JBuiltin "__proto__") /\
  Value (JBuiltin "__proto__") <> Value (JStr "c") /\
  fst (show (snd (show blank "a" (Some "c"))) "constructor" None)
  = Value (JBuiltin "constructor") /\
  Value (JBuiltin "constructor") <> Value JUndefined.
Proof. repeat split; try reflexivity; discriminate. Qed.

(** C10, amended.  Setting a show with a truthy content returns the
    handle itself; for every name but [__proto__] reading it back returns
    exactly that content; and a name that was never set and is not a
    property name of Object.prototype reads as [undefined]. *)
Theorem show_set_then_get (d : design) (name c : string) :
  c <> EmptyString ->
  fst (show d name (Some c)) = This /\
  (name <> "__proto__" ->
   show (snd (show d name (Some c))) name None
   = (Value (JStr c), snd (show d name (Some c)))) /\
  (inherited name = false ->
   (forall table, shows (_body d) = Some table -> own table name = None) ->
   show d name None = (Value JUndefined, d)).
Proof.
  intros Hc.
  assert (Htruthy : truthy (JStr c) = true)
    by (cbn [truthy]; apply String.eqb_neq in Hc; now rewrite Hc).
  unfold show. rewrite Htruthy. cbn [truthy fst snd _body shows].
  split; [reflexivity|]. split.
  - intros Hname. now rewrite JSFacts.obj_get_set_own.
  - intros Hinherited Hnever.
    destruct (shows (_body d)) as [table|] eqn:Htable; [|reflexivity].
    rewrite (JSFacts.obj_get_absent table name (Hnever table eq_refl) Hinherited).
    reflexivity.
Qed.

Lemma show_set_then_get_witness :
  fst (show blank "a" (Some "function(doc) {}")) = This /\
  show (snd (show blank "a" (Some "function(doc) {}"))) "a" None
  = (Value (JStr "function(doc) {}"), snd (show blank "a" (Some "function(doc) {}"))) /\
  show blank "b" None = (Value JUndefined, blank).
Proof.
  destruct (show_set_then_get blank "a" "function(doc) {}") as (Hthis & Hget & _).
  - discriminate.
  - destruct (show_set_then_get blank "b" "x") as (_ & _ & Hnever).
    + discriminate.
    + split; [exact Hthis|]. split.
      * apply Hget. discriminate.
      * apply Hnever; [reflexivity|]. intros table E. discriminate E.
Defined.

End DesignShows.

(* ================================================================= *)
(** ** More on [request] and on the listeners *)

Module RequestFacts.
Import JS Nodecouch Database.
Local Open Scope string_scope.

(** X1.  The verb put into the options is always a string, and putting
    it through the rule again changes nothing. *)
Theorem request_method_idempotent (m : jsval) :
  typeof (request_method m) = "string" /\
  request_method (request_method m) = request_method m.
Proof.
  unfold request_method at 1 3 4.
  destruct (string_matches m methodMatch) eqn:E.
  - split.
    + unfold string_matches in E. apply andb_prop in E as [E _].
      now apply String.eqb_eq in E.
    + unfold request_method. now rewrite E.
  - split; reflexivity.
Qed.

Section Request.

Variable JSON_stringify : jsval -> string.

(** X2.  The path on the wire is the given path behind a slash; an
    absent or otherwise falsy path gives the slash alone. *)
Theorem request_path_rule {K} (this : options) (p : properties K) :
  (forall s, path p = JStr s ->
             o_path (sent_options (request JSON_stringify this p)) = "/" ++ s) /\
  (truthy (path p) = false ->
   o_path (sent_options (request JSON_stringify this p)) = "/").
Proof.
  split.
  - intros s Hs. cbn [request sent_options o_path]. rewrite Hs.
    destruct s; reflexivity.
  - intros Hfalsy. cbn [request sent_options o_path].
    unfold js_or. now rewrite Hfalsy.
Qed.

(** X3.  An argument of the constructor that is falsy (absent, an empty
    string, zero) is replaced by the default: with an empty user name and
    password the credential sent is the default one. *)
Theorem falsy_credentials_fall_back {K} (defaults : options) (h p u pw : jsval)
        (props : properties K) :
  truthy u = false -> truthy pw = false ->
  o_auth (sent_options (request JSON_stringify (nodecouch defaults h p u pw) props))
  = to_string (username defaults) ++ ":" ++ to_string (password defaults).
Proof.
  intros Hu Hpw. cbn [request sent_options o_auth nodecouch username password].
  unfold js_or. now rewrite Hu, Hpw.
Qed.

(** X4.  [revisionLimit] describes its body as a string, and [request]
    writes a body only when [typeof] says object: nothing is written, in
    the getter shape and in the setter shape alike, although the setter
    sends PUT and carries a body of type string in the description. *)
Theorem revisionLimit_writes_no_body (conn : options) (this : database)
        (limitOrCallback callback : jsval) :
  written (request JSON_stringify conn (revisionLimit this limitOrCallback callback))
  = [] /\
  (truthy callback = true -> is_null limitOrCallback = false ->
   o_method (sent_options
               (request JSON_stringify conn
                        (revisionLimit this limitOrCallback callback)))
   = JStr "PUT" /\
   typeof (body (revisionLimit this limitOrCallback callback)) = "string").
Proof.
  unfold revisionLimit. split.
  - cbn [request written body describe].
    destruct (truthy callback); [destruct (is_null limitOrCallback)|];
      reflexivity.
  - intros Hcb Hlimit. rewrite Hcb, Hlimit. split; reflexivity.
Qed.

(** X5.  [temporaryView] always writes a body: the JSON text of an
    object that holds the map function, and the reduce function exactly
    when the second argument is a string. *)
Theorem temporaryView_writes_map_and_reduce
        (querystring_stringify : jsval -> string) (conn : options)
        (this : database) (map second third callback : jsval) :
  exists fields,
    written (request JSON_stringify conn
                     (temporaryView querystring_stringify this
                                    map second third callback))
    = [JSON_stringify (JObj fields)] /\
    own fields "map" = Some map /\
    own fields "reduce" = if is_type second "string" then Some second else None.
Proof.
  unfold temporaryView.
  destruct (is_type second "string") eqn:E.
  - destruct second; try discriminate E.
    + eexists; split; [reflexivity | split; reflexivity].
    + unfold is_type, typeof in E.
      destruct (String.eqb member "__proto__"); discriminate E.
  - eexists; split; [reflexivity | split; reflexivity].
Qed.

End Request.

Lemma request_path_rule_witness :
  o_path (sent_options
            (request (fun _ => EmptyString)
                     {| host := JStr "localhost"; port := JNum 5984;
                        username := JStr "foo"; password := JStr "bar" |}
                     (listDatabases (JFun "cb") JUndefined)))
  = "/_all_dbs".
Proof.
  apply (request_path_rule (fun _ => EmptyString)). reflexivity.
Defined.

Lemma falsy_credentials_fall_back_witness :
  o_auth (sent_options
            (request (fun _ => EmptyString)
                     (nodecouch {| host := JStr "localhost"; port := JNum 5984;
                                   username := JStr "admin"; password := JStr "secret" |}
                                (JStr "couch.example") JUndefined
                                JUndefined (JStr EmptyString))
                     (getVersion (JFun "cb"))))
  = "admin:secret".
Proof.
  apply (falsy_credentials_fall_back (fun _ => EmptyString)); reflexivity.
Defined.

Lemma revisionLimit_writes_no_body_witness :
  written (request (fun _ => EmptyString)
                   {| host := JStr "localhost"; port := JNum 5984;
                      username := JStr "foo"; password := JStr "bar" |}
                   (revisionLimit {| _name := JStr "db";
                                     _connection :=
                                       {| host := JStr "localhost"; port := JNum 5984;
                                          username := JStr "foo";
                                          password := JStr "bar" |} |}
                                  (JNum 500) (JFun "cb")))
  = [] /\
  typeof (body (revisionLimit {| _name := JStr "db";
                                 _connection :=
                                   {| host := JStr "localhost"; port := JNum 5984;
                                      username := JStr "foo";
                                      password := JStr "bar" |} |}
                              (JNum 500) (JFun "cb")))
  = "string".
Proof.
  destruct (revisionLimit_writes_no_body
              (fun _ => EmptyString)
              {| host := JStr "localhost"; port := JNum 5984;
                 username := JStr "foo"; password := JStr "bar" |}
              {| _name := JStr "db";
                 _connection := {| host := JStr "localhost"; port := JNum 5984;
                                   username := JStr "foo"; password := JStr "bar" |} |}
              (JNum 500) (JFun "cb")) as [Hnone Hput].
  split; [exact Hnone|].
  destruct Hput as [_ Hbody]; [reflexivity | reflexivity | exact Hbody].
Defined.

End RequestFacts.

Module ListenerFacts.
Import JS Nodecouch Database.
Local Open Scope string_scope.

Lemma append_associative (a b c : string) : (a ++ b) ++ c = a ++ (b ++ c).
Proof. induction a as [|x a IH]; simpl; [reflexivity | now rewrite IH]. Qed.

Lemma accumulate_from (chunks : list string) (content : string) :
  fold_left String.append chunks content
  = content ++ fold_left String.append chunks EmptyString.
Proof.
  revert content. induction chunks as [|chunk chunks IH]; intros content.
  - cbn [fold_left]. induction content as [|x content IHc]; simpl; congruence.
  - cbn [fold_left]. rewrite (IH (content ++ chunk)), (IH (EmptyString ++ chunk)).
    cbn [String.append]. apply append_associative.
Qed.

(** X6.  Only the text counts, not how the transport cuts it into
    chunks: a chunk delivered in two pieces gives the same run. *)
Theorem chunk_boundaries_do_not_matter
        (JSON_parse : string -> completion jsval) (callback : continuation)
        (before after : list string) (a b : string) :
  _request JSON_parse callback (before ++ (a ++ b)%string :: after)%list
  = _request JSON_parse callback (before ++ a :: b :: after)%list.
Proof.
  unfold _request. f_equal. f_equal.
  rewrite !fold_left_app. cbn [fold_left].
  now rewrite append_associative.
Qed.

(** The pair the ['end'] listener hands over first: an error with a null
    response, or null with a response that is neither null nor
    [undefined]. *)
Lemma first_pair_shape (parsed : completion jsval) (k : continuation)
      (error response : jsval) (rest : list (jsval * jsval)) :
  (forall x, parsed = Throw x -> truthy x = true) ->
  invoked (end_listener parsed k) = (error, response) :: rest ->
  (truthy error = true /\ response = JNull) \/
  (error = JNull /\ response <> JNull /\ response <> JUndefined).
Proof.
  intros Hfailure H.
  destruct parsed as [content|failure].
  - destruct content; cbn [end_listener get_prop] in H;
      try (injection H as <- <- _; left; split; reflexivity);
      try match type of H with
          | context [truthy (obj_get ?f ?n)] => destruct (truthy (obj_get f n))
          end;
      cbn [truthy negb] in H;
      match type of H with
      | context [try_catch (call ?c ?a ?b) _] =>
          destruct (DispatcherFacts.first_call_of_try c a b) as (rest' & Hcalls & _);
          rewrite Hcalls in H; injection H as <- <- _
      end;
      first [ left; split; reflexivity
            | right; repeat split; discriminate ].
  - cbn [end_listener call invoked] in H. injection H as <- <- _.
    left. split; [now apply Hfailure | reflexivity].
Qed.

(** X7.  The callback is called once or twice.  A parse failure and a
    body that parsed to null give one call, and an exception of the
    callback then escapes.  Any other body gives a call inside the [try]
    block: if the callback returns, that is all; if it throws, it is
    called a second time, with its own exception and null. *)
Theorem callback_called_again_when_it_throws (k : continuation) :
  (forall failure,
      invoked (end_listener (Throw failure) k) = [(failure, JNull)] /\
      thrown (end_listener (Throw failure) k) = k failure JNull) /\
  (exists message,
      invoked (end_listener (Normal JNull) k) = [(TypeError message, JNull)] /\
      thrown (end_listener (Normal JNull) k) = k (TypeError message) JNull) /\
  (forall content error response rest,
      content <> JNull -> content <> JUndefined ->
      invoked (end_listener (Normal content) k) = (error, response) :: rest ->
      match k error response with
      | None => rest = [] /\ thrown (end_listener (Normal content) k) = None
      | Some x => rest = [(x, JNull)] /\
                  thrown (end_listener (Normal content) k) = k x JNull
      end).
Proof.
  split; [|split].
  - intros failure. split; reflexivity.
  - eexists. split; reflexivity.
  - intros content error response rest Hnull Hundef H.
    destruct content; try congruence;
      cbn [end_listener get_prop] in *;
      try match goal with
          | |- context [truthy (obj_get ?f ?n)] => destruct (truthy (obj_get f n))
          end;
      cbn [truthy negb] in *; unfold try_catch in *;
      cbn [call thrown invoked] in *;
      match type of H with
      | context [k ?a ?b] =>
          destruct (k a b) as [x|] eqn:E; cbn [call invoked thrown app] in *;
          injection H as <- <- <-; rewrite E; split; first [reflexivity | exact E]
      end.
Qed.

Lemma callback_called_again_witness :
  invoked (end_listener (Normal (JObj [("ok", JBool true)]))
                        (fun error _ => if is_null error
                                        then Some (JErr "Error" "boom")
                                        else None))
  = [(JNull, JObj [("ok", JBool true)]); (JErr "Error" "boom", JNull)].
Proof.
  destruct (callback_called_again_when_it_throws
              (fun error _ => if is_null error
                              then Some (JErr "Error" "boom") else None))
    as (_ & _ & Hagain).
  specialize (Hagain (JObj [("ok", JBool true)]) JNull
                     (JObj [("ok", JBool true)]) [(JErr "Error" "boom", JNull)]).
  cbn [is_null] in Hagain.
  destruct Hagain as [_ _]; [discriminate | discriminate | reflexivity | reflexivity].
Defined.

(** X8.  No callback of the database methods other than the one of
    [allDocuments], nor the one of [getVersion], throws on a pair the
    ['end'] listener hands over: each goes on to call the caller's
    function. *)
Theorem callbacks_reach_the_caller
        (parsed : completion jsval) (k : continuation)
        (error response : jsval) (rest : list (jsval * jsval)) (fuel : nat) :
  (forall x, parsed = Throw x -> truthy x = true) ->
  invoked (end_listener parsed k) = (error, response) :: rest ->
  (forall h, (forall cb, h <> AllDocuments cb) ->
             exists args, arguments fuel h error response = Some (Normal args)) /\
  (forall cb, exists args,
        connection_arguments fuel (GetVersion cb) error response
        = Some (Normal args)).
Proof.
  intros Hfailure H.
  destruct (first_pair_shape parsed k error response rest Hfailure H)
    as [[Htruthy ->] | (-> & Hnull & Hundef)].
  - split.
    + intros h _. rewrite (HandlerFacts.arguments_on_error fuel h error Htruthy).
      eexists; reflexivity.
    + intros cb.
      rewrite (HandlerFacts.connection_arguments_on_error fuel _ error Htruthy).
      eexists; reflexivity.
  - assert (Hget : forall n, exists x, get_prop response n = Normal x)
      by (intros n; destruct response; try congruence; eexists; reflexivity).
    split.
    + intros h Hother.
      destruct h; cbn [arguments];
        try (eexists; reflexivity);
        try (exfalso; eapply Hother; reflexivity).
      * unfold create_callback. cbn [is_null].
        destruct (Hget "ok") as [ok ->]. eexists; reflexivity.
      * unfold destroy_callback. destruct (truthy response);
          [destruct (Hget "ok") as [ok ->]|]; eexists; reflexivity.
      * unfold ensureFullCommit_callback. cbn [is_null].
        destruct (Hget "ok") as [ok ->]. eexists; reflexivity.
      * unfold purge_callback. cbn [truthy].
        destruct (Hget "purged") as [purged ->]. eexists; reflexivity.
      * unfold revisionLimit_callback. cbn [truthy].
        destruct (is_null limit); eexists; reflexivity.
      * unfold rows_callback, info_of. cbn [is_null].
        destruct (Hget "total_rows") as [total ->].
        destruct (Hget "offset") as [offset ->].
        destruct (Hget "rows") as [rows ->]. eexists; reflexivity.
    + intros cb. cbn [connection_arguments]. unfold getVersion_callback.
      destruct (is_null response); [eexists; reflexivity|].
      destruct (Hget "version") as [version ->]. eexists; reflexivity.
Qed.

Lemma callbacks_reach_the_caller_witness :
  exists args,
    arguments 0 (Purge (JFun "cb")) JNull (JObj [("purged", JObj [])])
    = Some (Normal args).
Proof.
  destruct (callbacks_reach_the_caller
              (Normal (JObj [("purged", JObj [])])) (fun _ _ => None)
              JNull (JObj [("purged", JObj [])]) [] 0) as [Hhandlers _].
  - intros x E. discriminate E.
  - reflexivity.
  - apply Hhandlers. intros cb E. discriminate E.
Defined.



End ListenerFacts.

(* ================================================================= *)
(** ** More on the callbacks *)

Module CallbackFacts.
Import JS Nodecouch Database Shapes.
Local Open Scope string_scope.

(** *** [allDocuments] *)

Lemma own_obj_put_other (fields : list (string * jsval)) (k k' : string) (v : jsval) :
  k <> k' -> own (obj_put fields k v) k' = own fields k'.
Proof.
  intros Hk. induction fields as [|[k0 v0] rest IH]; cbn [obj_put own].
  - apply String.eqb_neq in Hk. rewrite String.eqb_sym. now rewrite Hk.
  - destruct (String.eqb k k0) eqn:E; cbn [own]; [|now rewrite IH].
    apply String.eqb_eq in E. subst k0.
    destruct (String.eqb k' k) eqn:E'; [|reflexivity].
    apply String.eqb_eq in E'. congruence.
Qed.

Lemma own_obj_set_other (fields : list (string * jsval)) (k k' : string) (v : jsval) :
  k <> k' -> own (obj_set fields k v) k' = own fields k'.
Proof.
  intros Hk. unfold obj_set.
  destruct (own fields k); [now apply own_obj_put_other|].
  destruct (String.eqb k "__proto__"); [reflexivity | now apply own_obj_put_other].
Qed.

Lemma own_obj_set_same (fields : list (string * jsval)) (k : string) (v : jsval) :
  k <> "__proto__" -> own (obj_set fields k v) k = Some v.
Proof.
  intros Hk. unfold obj_set. apply String.eqb_neq in Hk. rewrite Hk.
  destruct (own fields k); apply JSFacts.own_obj_put.
Qed.

Lemma find_in_app {A} (f : A -> bool) (l l' : list A) :
  find f (l ++ l')%list = match find f l with
                          | Some x => Some x
                          | None => find f l'
                          end.
Proof. induction l as [|x l IH]; simpl; [reflexivity|]. now destruct (f x). Qed.

(** The revision recorded for an id is the one of its last row. *)
Lemma recorded_revision (entries : list (string * jsval))
      (documents : list (string * jsval)) (id : string) :
  id <> "__proto__" ->
  own (fold_left record_revision entries documents) id
  = match last_revision entries id with
    | Some rev => Some rev
    | None => own documents id
    end.
Proof.
  intros Hid. revert documents.
  induction entries as [|[id' rev'] entries IH]; intros documents; [reflexivity|].
  cbn [fold_left]. rewrite IH.
  unfold last_revision. cbn [rev]. rewrite find_in_app.
  destruct (find (fun entry => String.eqb id (fst entry)) (rev entries));
    [reflexivity|].
  cbn [find fst snd]. unfold record_revision. cbn [fst snd].
  destruct (String.eqb id id') eqn:E.
  - apply String.eqb_eq in E. subst id'. now apply own_obj_set_same.
  - apply String.eqb_neq in E. apply own_obj_set_other. congruence.
Qed.

Lemma proto_never_recorded (entries : list (string * jsval))
      (documents : list (string * jsval)) :
  own documents "__proto__" = None ->
  own (fold_left record_revision entries documents) "__proto__" = None.
Proof.
  revert documents.
  induction entries as [|[id rev] entries IH]; intros documents H; [exact H|].
  cbn [fold_left]. apply IH. unfold record_revision. cbn [fst snd].
  destruct (String.eqb id "__proto__") eqn:E.
  - apply String.eqb_eq in E. subst id. unfold obj_set. now rewrite H.
  - apply String.eqb_neq in E. now rewrite own_obj_set_other.
Qed.

Lemma collect_revisions_rows (todo done : list (string * jsval))
      (total offset : jsval) (documents : list (string * jsval)) (fuel : nat) :
  length todo < fuel ->
  collect_revisions fuel (all_docs total offset (done ++ todo)) (length done) documents
  = Some (Normal (fold_left record_revision todo documents)).
Proof.
  revert done documents fuel.
  induction todo as [|entry todo IH]; intros done documents fuel Hfuel;
    (destruct fuel as [|fuel]; [inversion Hfuel|]).
  - cbn [collect_revisions].
    change (get_prop (all_docs total offset (done ++ [])) "rows")
      with (Normal (JArr (List.map row (done ++ [])))).
    cbn [bind js_index]. rewrite app_nil_r.
    rewrite <- (length_map row done) at 1.
    now rewrite JSFacts.nth_at_end.
  - cbn [collect_revisions].
    change (get_prop (all_docs total offset (done ++ entry :: todo)) "rows")
      with (Normal (JArr (List.map row (done ++ entry :: todo)))).
    assert (Hnth : nth (length done)
                       (List.map row done ++ row entry :: List.map row todo)%list
                       JUndefined = row entry)
      by (rewrite <- (length_map row done) at 1; apply JSFacts.nth_middle_elem).
    cbn [bind js_index]. rewrite map_app. cbn [List.map]. rewrite !Hnth.
    change (truthy (row entry)) with true. cbv beta iota.
    change (get_prop (row entry) "id") with (Normal (JStr (fst entry))).
    change (get_prop (row entry) "value") with (Normal (JObj [("rev", snd entry)])).
    cbn [bind].
    change (get_prop (JObj [("rev", snd entry)]) "rev") with (Normal (snd entry)).
    cbn [bind to_string].
    replace (S (length done)) with (length (done ++ [entry])%list)
      by (rewrite length_app; simpl; lia).
    replace (done ++ entry :: todo)%list with ((done ++ [entry]) ++ todo)%list
      by (now rewrite <- app_assoc).
    rewrite IH by (simpl in Hfuel; lia). reflexivity.
Qed.

(** X10.  From an answer of [_all_docs], [allDocuments] hands on the
    totals and an object that maps every listed id to the revision of
    its last row; no entry is made for the id [__proto__]. *)
Theorem allDocuments_collects_revisions
        (total offset : jsval) (entries : list (string * jsval)) (fuel : nat) :
  length entries < fuel ->
  exists documents,
    allDocuments_callback fuel JNull (all_docs total offset entries)
    = Some (Normal [JNull; JObj [("total", total); ("offset", offset)];
                    JObj documents]) /\
    (forall id, id <> "__proto__" -> own documents id = last_revision entries id) /\
    own documents "__proto__" = None.
Proof.
  intros Hfuel. exists (fold_left record_revision entries []).
  split; [|split].
  - unfold allDocuments_callback. cbn [is_null].
    change (info_of (all_docs total offset entries))
      with (Normal (JObj [("total", total); ("offset", offset)])).
    pose proof (collect_revisions_rows entries [] total offset [] fuel Hfuel) as H.
    cbn [app length] in H. now rewrite H.
  - intros id Hid. rewrite (recorded_revision entries [] id Hid).
    now destruct (last_revision entries id).
  - now apply proto_never_recorded.
Qed.

Lemma allDocuments_collects_revisions_witness :
  allDocuments_callback 3 JNull
    (all_docs (JNum 2) (JNum 0) [("a", JStr "1-x"); ("b", JStr "2-y")])
  = Some (Normal [JNull; JObj [("total", JNum 2); ("offset", JNum 0)];
                  JObj [("a", JStr "1-x"); ("b", JStr "2-y")]]).
Proof.
  destruct (allDocuments_collects_revisions
              (JNum 2) (JNum 0) [("a", JStr "1-x"); ("b", JStr "2-y")] 3)
    as (documents & Hresult & _).
  - simpl; lia.
  - reflexivity.
Defined.

(** X11.  An answer without [rows] makes the callback of [allDocuments]
    throw on [response.rows[0]] before it calls the caller's function;
    called again with that TypeError, as the ['end'] listener does, it
    hands the TypeError on. *)
Theorem allDocuments_without_rows
        (fields : list (string * jsval)) (fuel : nat) :
  own fields "rows" = None ->
  allDocuments_callback (S fuel) JNull (JObj fields)
  = Some (Throw (TypeError "Cannot read property '0' of undefined")) /\
  allDocuments_callback fuel
    (TypeError "Cannot read property '0' of undefined") JNull
  = Some (Normal [TypeError "Cannot read property '0' of undefined";
                  JUndefined; JObj []]).
Proof.
  intros Hrows. split; [|reflexivity].
  unfold allDocuments_callback, info_of.
  cbn [is_null get_prop bind collect_revisions].
  unfold obj_get. rewrite Hrows. reflexivity.
Qed.

Lemma allDocuments_without_rows_witness :
  allDocuments_callback 1 JNull (JObj [("ok", JBool true)])
  = Some (Throw (TypeError "Cannot read property '0' of undefined")).
Proof. apply (allDocuments_without_rows [("ok", JBool true)] 0). reflexivity. Defined.

End CallbackFacts.

Module ListDatabasesFacts.
Import JS Nodecouch.
Local Open Scope string_scope.

(** The loop over a run of non-empty names uses one unit of fuel per
    name and arrives behind the names it kept. *)
Lemma strip_through_names (todo : list string) (kept tail : list jsval) (fuel : nat) :
  Forall (fun n => n <> EmptyString) todo ->
  strip_couch_related (length todo + fuel)
                      (JArr (kept ++ map JStr todo ++ tail)) (length kept)
  = strip_couch_related
      fuel
      (JArr ((kept ++ map JStr (filter (fun n => negb (Spec.couch_related n)) todo))
             ++ tail))
      (length (kept ++ map JStr (filter (fun n => negb (Spec.couch_related n)) todo))).
Proof.
  revert kept.
  induction todo as [|n todo IH]; intros kept Hnames.
  - cbn [length map filter Nat.add app]. now rewrite !app_nil_r.
  - inversion Hnames as [|? ? Hn Htodo]; subst.
    assert (Hnth : nth (length kept) (kept ++ map JStr (n :: todo) ++ tail)%list
                       JUndefined = JStr n)
      by (cbn [map app]; apply JSFacts.nth_middle_elem).
    assert (Hsplice : remove_nth (length kept)
                                 (kept ++ map JStr (n :: todo) ++ tail)%list
                      = (kept ++ map JStr todo ++ tail)%list)
      by (cbn [map app]; apply JSFacts.remove_nth_middle).
    cbn [length Nat.add strip_couch_related js_index].
    rewrite !Hnth, (HandlerFacts.truthy_name n Hn).
    cbn [substr_0_1]. rewrite (HandlerFacts.first_character_is_underscore n Hn).
    cbn [filter].
    destruct (Spec.couch_related n); cbn [negb].
    + cbn [splice_1]. rewrite Hsplice. now apply IH.
    + replace (kept ++ map JStr (n :: todo) ++ tail)%list
        with ((kept ++ [JStr n]) ++ map JStr todo ++ tail)%list
        by (cbn [map app]; now rewrite <- app_assoc).
      replace (S (length kept)) with (length (kept ++ [JStr n])%list)
        by (rewrite length_app; simpl; lia).
      rewrite (IH (kept ++ [JStr n])%list Htodo).
      cbn [map]. now rewrite <- !app_assoc.
Qed.

(** X12.  The filter runs only when [noCouchRelated] is the boolean
    [true]: with any other value, a truthy one included, the list goes to
    the caller untouched. *)
Theorem listDatabases_filters_only_on_true
        (fuel : nat) (noCouchRelated error response : jsval) :
  noCouchRelated <> JBool true ->
  listDatabases_callback fuel noCouchRelated error response
  = Some (Normal [error; response]).
Proof.
  intros Hflag. unfold listDatabases_callback.
  assert (is_true noCouchRelated = false) as ->
      by (destruct noCouchRelated as [| |[|]| | | | | | |];
          try reflexivity; congruence).
  now rewrite andb_false_r.
Qed.

Lemma listDatabases_filters_only_on_true_witness :
  listDatabases_callback 0 (JNum 1) JNull (JArr [JStr "_users"; JStr "a"])
  = Some (Normal [JNull; JArr [JStr "_users"; JStr "a"]]).
Proof. apply listDatabases_filters_only_on_true. discriminate. Defined.

(** X13.  The loop ends at the first falsy element (an empty name, a
    null): the names before it are filtered, the element and everything
    after it stay as they are. *)
Theorem listDatabases_stops_at_falsy_element
        (names : list string) (x : jsval) (rest : list jsval) (fuel : nat) :
  Forall (fun n => n <> EmptyString) names ->
  truthy x = false ->
  length names < fuel ->
  listDatabases_callback fuel (JBool true) JNull
                         (JArr (map JStr names ++ x :: rest))
  = Some (Normal [JNull;
                  JArr (map JStr (filter (fun n => negb (Spec.couch_related n)) names)
                        ++ x :: rest)]).
Proof.
  intros Hnames Hx Hfuel.
  replace fuel with (length names + S (fuel - S (length names))) by lia.
  unfold listDatabases_callback. cbn [is_null is_true negb andb].
  pose proof (strip_through_names names [] (x :: rest)
                                  (S (fuel - S (length names))) Hnames) as H.
  cbn [app length] in H. rewrite H.
  cbn [strip_couch_related js_index].
  rewrite JSFacts.nth_middle_elem, Hx. reflexivity.
Qed.

Lemma listDatabases_stops_at_falsy_element_witness :
  listDatabases_callback 2 (JBool true) JNull
                         (JArr [JStr "_replicator"; JNull; JStr "_users"])
  = Some (Normal [JNull; JArr [JNull; JStr "_users"]]).
Proof.
  apply (listDatabases_stops_at_falsy_element ["_replicator"] JNull [JStr "_users"] 2).
  - repeat constructor; discriminate.
  - reflexivity.
  - simpl; lia.
Defined.

(** X14.  A truthy element that is not a string has no [substr]: the
    callback throws a TypeError when the loop reaches it, and the
    caller's function is not called. *)
Theorem listDatabases_throws_on_non_string
        (names : list string) (x : jsval) (rest : list jsval) (fuel : nat) :
  Forall (fun n => n <> EmptyString) names ->
  truthy x = true ->
  typeof x <> "string" ->
  length names < fuel ->
  listDatabases_callback fuel (JBool true) JNull
                         (JArr (map JStr names ++ x :: rest))
  = Some (Throw (TypeError "Object has no method 'substr'")).
Proof.
  intros Hnames Hx Htype Hfuel.
  replace fuel with (length names + S (fuel - S (length names))) by lia.
  unfold listDatabases_callback. cbn [is_null is_true negb andb].
  pose proof (strip_through_names names [] (x :: rest)
                                  (S (fuel - S (length names))) Hnames) as H.
  cbn [app length] in H. rewrite H.
  cbn [strip_couch_related js_index].
  rewrite JSFacts.nth_middle_elem, Hx.
  destruct x; try discriminate Hx; try reflexivity.
  now contradiction Htype.
Qed.

Lemma listDatabases_throws_on_non_string_witness :
  listDatabases_callback 2 (JBool true) JNull (JArr [JStr "a"; JNum 7])
  = Some (Throw (TypeError "Object has no method 'substr'")).
Proof.
  apply (listDatabases_throws_on_non_string ["a"] (JNum 7) [] 2).
  - repeat constructor; discriminate.
  - reflexivity.
  - discriminate.
  - simpl; lia.
Defined.

End ListDatabasesFacts.

(* ================================================================= *)
(** ** More on the methods of the database handle *)

Module MethodFacts.
Import JS Nodecouch Database.
Local Open Scope string_scope.

Section Methods.

Variable querystring_stringify : jsval -> string.
Variable this : database.

(** X15.  Called with a function alone, every method with optional
    slots takes it as the callback and leaves the slots at their
    defaults: no query, no design, no document id, no reduce, and
    [revisionLimit] reads the limit.  [temporaryView] then hands
    [undefined] to [querystring.stringify]. *)
Theorem callable_alone_resolution (design showName listName viewName mapFunction : jsval)
        (f : string) :
  allDocuments querystring_stringify this (JFun f) JUndefined
  = describe "GET" (JStr (to_string (name this) ++ "/_all_docs"))
             JUndefined (AllDocuments (JFun f)) /\
  compact this (JFun f) JUndefined
  = describe "POST" (JStr (to_string (name this) ++ "/_compact"))
             JUndefined (Started (JFun f)) /\
  revisionLimit this (JFun f) JUndefined
  = describe "GET" (JStr (to_string (name this) ++ "/_revs_limit"))
             JUndefined (RevisionLimit JNull (JFun f)) /\
  show querystring_stringify this design showName (JFun f) JUndefined JUndefined
  = describe "GET"
             (JStr (to_string (name this) ++ "/_design/" ++ to_string design ++
                    "/_show/" ++ to_string showName))
             JUndefined (Direct (JFun f)) /\
  list_ querystring_stringify this design listName viewName
        (JFun f) JUndefined JUndefined
  = describe "GET"
             (JStr (to_string (name this) ++ "/_design/" ++ to_string design ++
                    "/_list/" ++ to_string listName ++ "/" ++ to_string viewName))
             JUndefined (Direct (JFun f)) /\
  temporaryView querystring_stringify this mapFunction (JFun f) JUndefined JUndefined
  = describe "POST"
             (JStr (to_string (name this) ++ "/_temp_view" ++
                    (if String.eqb (querystring_stringify JUndefined) EmptyString
                     then EmptyString
                     else "?" ++ querystring_stringify JUndefined)))
             (JObj [("map", mapFunction)]) (Rows (JFun f)).
Proof.
  assert (Hnil : forall s, s ++ EmptyString = s)
    by (induction s as [|c s IH]; simpl; congruence).
  repeat split; try reflexivity;
    unfold show, list_, temporaryView;
    cbn [is_type typeof String.eqb Ascii.eqb Bool.eqb js_or truthy is_null negb app];
    rewrite ?Hnil; try reflexivity.
  now destruct (String.eqb (querystring_stringify JUndefined) EmptyString).
Qed.

(** X16.  Called with every slot filled, the methods put the identifier
    in the path before the query: the document id behind the show, the
    other design between the list and the view, the design behind
    [_compact]; a string in the second slot of [temporaryView] is the
    reduce function and the third slot the query. *)
Theorem full_call_resolution (design showName listName mapFunction : jsval)
        (docId other viewName designName reduce : string)
        (query : list (string * jsval)) (f : string) :
  show querystring_stringify this design showName
       (JStr docId) (JObj query) (JFun f)
  = describe "GET"
             (JStr (to_string (name this) ++ "/_design/" ++ to_string design ++
                    "/_show/" ++ to_string showName ++ "/" ++ docId ++
                    "?" ++ querystring_stringify (JObj query)))
             JUndefined (Direct (JFun f)) /\
  list_ querystring_stringify this design listName (JStr other)
        (JStr viewName) (JObj query) (JFun f)
  = describe "GET"
             (JStr (to_string (name this) ++ "/_design/" ++ to_string design ++
                    "/_list/" ++ to_string listName ++ "/" ++ other ++ "/" ++
                    viewName ++ "?" ++ querystring_stringify (JObj query)))
             JUndefined (Direct (JFun f)) /\
  allDocuments querystring_stringify this (JObj query) (JFun f)
  = describe "GET"
             (JStr (to_string (name this) ++ "/_all_docs" ++
                    "?" ++ querystring_stringify (JObj query)))
             JUndefined (AllDocuments (JFun f)) /\
  compact this (JStr designName) (JFun f)
  = describe "POST"
             (JStr (to_string (name this) ++ "/_compact" ++
                    (if String.eqb designName EmptyString then EmptyString
                     else "/" ++ designName)))
             JUndefined (Started (JFun f)) /\
  temporaryView querystring_stringify this mapFunction
                (JStr reduce) (JObj query) (JFun f)
  = describe "POST"
             (JStr (to_string (name this) ++ "/_temp_view" ++
                    (if String.eqb (querystring_stringify (JObj query)) EmptyString
                     then EmptyString
                     else "?" ++ querystring_stringify (JObj query))))
             (JObj [("map", mapFunction); ("reduce", JStr reduce)])
             (Rows (JFun f)).
Proof.
  repeat split; try reflexivity.
  - unfold compact. cbn [truthy js_or to_string].
    now destruct (String.eqb designName EmptyString).
  - unfold temporaryView.
    cbn [is_type typeof String.eqb Ascii.eqb Bool.eqb js_or truthy is_null negb app].
    now destruct (String.eqb (querystring_stringify (JObj query)) EmptyString).
Qed.

(** X17.  Without a callback the one argument given takes its place,
    whatever it is: [compact] with a design name alone compacts the whole
    database and holds the name as callback; [revisionLimit] with a limit
    alone reads the limit and holds the number as callback. *)
Theorem missing_callback_resolution (only : jsval) :
  compact this only JUndefined
  = describe "POST" (JStr (to_string (name this) ++ "/_compact"))
             JUndefined (Started only) /\
  revisionLimit this only JUndefined
  = describe "GET" (JStr (to_string (name this) ++ "/_revs_limit"))
             JUndefined (RevisionLimit JNull only).
Proof.
  assert (Hnil : forall s, s ++ EmptyString = s)
    by (induction s as [|c s IH]; simpl; congruence).
  split.
  - unfold compact, js_or. cbn [truthy]. now rewrite Hnil.
  - reflexivity.
Qed.

End Methods.

(** X18.  For an id that is a number, a boolean, [undefined] or null,
    [document] gives a plain Document with a null id when the id is
    falsy, and throws a TypeError when it is truthy: such a value has no
    [match]. *)
Theorem document_edge_ids (docId rev : jsval) :
  typeof docId = "number" \/ typeof docId = "boolean" \/
  docId = JUndefined \/ docId = JNull ->
  if truthy docId
  then exists message, document docId rev = Throw (TypeError message)
  else document docId rev
       = Normal {| Doc := Document; id := JNull; revision := js_or rev JNull |}.
Proof.
  intros Hkind.
  destruct docId; cbn [typeof] in Hkind;
    try (decompose [or] Hkind; discriminate);
    try (destruct (String.eqb member "__proto__");
         decompose [or] Hkind; discriminate);
    cbn [truthy].
  - reflexivity.
  - reflexivity.
  - destruct b; [eexists|]; reflexivity.
  - unfold document, js_or. cbn [truthy].
    destruct (Z.eqb n 0); [|eexists]; reflexivity.
Qed.

Lemma document_edge_ids_witness :
  exists message, document (JNum 7) JUndefined = Throw (TypeError message).
Proof. apply (document_edge_ids (JNum 7) JUndefined). left. reflexivity. Defined.

End MethodFacts.

(* ================================================================= *)
(** ** More on the design document handle *)

Module DesignFacts.
Import JS DesignDoc DesignView.
Local Open Scope string_scope.

Lemma obj_get_set_other (fields : list (string * jsval)) (k k' : string) (v : jsval) :
  k <> k' -> obj_get (obj_set fields k v) k' = obj_get fields k'.
Proof.
  intros Hk. unfold obj_get. now rewrite CallbackFacts.own_obj_set_other.
Qed.

(** A name whose entry reads as absent or as a plain object can be
    written and read back. *)
Lemma entry_written (table : list (string * jsval)) (name : string)
      (entry : list (string * jsval)) (v : jsval) :
  js_or (obj_get table name) (JObj []) = JObj entry ->
  obj_get (obj_set table name v) name = v.
Proof.
  intros Hentry. unfold obj_get, obj_set in *.
  destruct (own table name) as [x|] eqn:Hown.
  - now rewrite JSFacts.own_obj_put.
  - destruct (String.eqb name "__proto__") eqn:Hproto.
    + apply String.eqb_eq in Hproto. subst name. discriminate Hentry.
    + now rewrite JSFacts.own_obj_put.
Qed.

Lemma views_after_with_views (d : design) (v : jsval) :
  views_of (with_views d v) = v.
Proof.
  unfold views_of, with_views. cbn [_body other_fields].
  apply JSFacts.obj_get_set_own. discriminate.
Qed.

(** X19.  Setting a view returns the handle itself, and reading the view
    back gives an object whose [map] is the one set and whose [reduce] is
    the one set or, when none was given, the one the view had before:
    setting a new map keeps the old reduce.  The shows are not touched. *)
Theorem view_set_then_get (d : design) (name : string) (map reduce : jsval)
        (table entry : list (string * jsval)) :
  truthy map = true ->
  js_or (views_of d) (JObj []) = JObj table ->
  js_or (obj_get table name) (JObj []) = JObj entry ->
  exists d' entry',
    view d name map reduce = Some (This, d') /\
    view d' name JUndefined JUndefined = Some (Value (JObj entry'), d') /\
    obj_get entry' "map" = map /\
    obj_get entry' "reduce"
    = (if truthy reduce then reduce else obj_get entry "reduce") /\
    shows (_body d') = shows (_body d).
Proof.
  intros Hmap Htable Hentry.
  eexists. eexists.
  split; [unfold view; rewrite Hmap, Htable, Hentry; reflexivity|].
  split; [|split; [|split]].
  - unfold view. cbn [truthy]. rewrite views_after_with_views. cbn [truthy].
    now rewrite (entry_written table name entry _ Hentry).
  - destruct (truthy reduce).
    + rewrite obj_get_set_other by discriminate.
      apply JSFacts.obj_get_set_own. discriminate.
    + apply JSFacts.obj_get_set_own. discriminate.
  - destruct (truthy reduce) eqn:Hreduce.
    + apply JSFacts.obj_get_set_own. discriminate.
    + apply obj_get_set_other. discriminate.
  - reflexivity.
Qed.

Lemma view_set_then_get_witness :
  exists d' entry',
    view blank "by_name" (JStr "function(doc) { emit(doc.name); }") JUndefined
    = Some (This, d') /\
    view d' "by_name" JUndefined JUndefined = Some (Value (JObj entry'), d') /\
    obj_get entry' "map" = JStr "function(doc) { emit(doc.name); }".
Proof.
  destruct (view_set_then_get
              blank "by_name" (JStr "function(doc) { emit(doc.name); }")
              JUndefined [] [])
    as (d' & entry' & Hset & Hget & Hmap & _); try reflexivity.
  exists d', entry'. repeat split; assumption.
Defined.

(** X21.  Shows and views do not interfere: setting a show leaves what
    [view] reads unchanged, and setting a view leaves what [show] reads
    unchanged. *)
Theorem shows_and_views_are_independent (d : design) :
  (forall name content other,
      view (snd (show d name content)) other JUndefined JUndefined
      = option_map (fun r => (fst r, snd (show d name content)))
                   (view d other JUndefined JUndefined)) /\
  (forall name map reduce result d' other,
      view d name map reduce = Some (result, d') ->
      show d' other None = (fst (show d other None), d')).
Proof.
  split.
  - intros name content other.
    assert (Hviews : views_of (snd (show d name content)) = views_of d)
      by (unfold show; destruct (truthy _); reflexivity).
    unfold view. cbn [truthy]. rewrite Hviews.
    destruct (truthy (views_of d)); [|reflexivity].
    destruct (views_of d); reflexivity.
  - intros name map reduce result d' other Hview.
    assert (Hshows : shows (_body d') = shows (_body d)).
    { unfold view in Hview.
      destruct (truthy map).
      - destruct (js_or (views_of d) (JObj [])); try discriminate Hview.
        destruct (js_or (obj_get fields name) (JObj []));
          try discriminate Hview; injection Hview as _ <-; reflexivity.
      - destruct (truthy (views_of d));
          [destruct (views_of d); try discriminate Hview|];
          injection Hview as _ <-; reflexivity. }
    unfold show. cbn [truthy]. now rewrite Hshows.
Qed.

Lemma shows_and_views_are_independent_witness :
  show (with_views blank (JObj [("v", JObj [("map", JStr "m")])])) "a" None
  = (Value JUndefined, with_views blank (JObj [("v", JObj [("map", JStr "m")])])).
Proof.
  destruct (shows_and_views_are_independent blank) as [_ Hshow].
  apply (Hshow "v" (JStr "m") JUndefined This _ "a"). reflexivity.
Defined.

(** X22.  A show cannot be cleared: an empty content is no content, so
    the call reads the show and changes nothing.  And setting one show
    leaves every other name as it read before, provided that name is not
    inherited or the table of shows already existed. *)
Theorem show_empty_content_and_frame (d : design) (name : string) :
  show d name (Some EmptyString) = show d name None /\
  (forall content other,
      other <> name ->
      inherited other = false \/ shows (_body d) <> None ->
      fst (show (snd (show d name content)) other None)
      = fst (show d other None)).
Proof.
  split; [reflexivity|].
  intros content other Hother Hsafe.
  unfold show at 2.
  destruct (truthy match content with
                   | Some source => JStr source
                   | None => JUndefined
                   end); [|reflexivity].
  cbn [snd]. unfold show. cbn [truthy fst _body shows].
  rewrite obj_get_set_other by congruence.
  destruct (shows (_body d)) as [table|]; [reflexivity|].
  destruct Hsafe as [Hinherited | Hsome]; [|congruence].
  unfold obj_get. cbn [own]. now rewrite Hinherited.
Qed.

Lemma show_empty_content_and_frame_witness :
  fst (show (snd (show blank "a" (Some "x"))) "b" None) = fst (show blank "b" None).
Proof.
  destruct (show_empty_content_and_frame blank "a") as [_ Hframe].
  apply Hframe; [discriminate | left; reflexivity].
Defined.

End DesignFacts.

(* ================================================================= *)
(** ** The verb rule, exactly *)

Module VerbFacts.
Import JS Nodecouch.
Local Open Scope string_scope.

(** X20.  What [request] does with the method, for every value: a string
    is sent as given, in its own letter case, when it starts with GET or
    when PUT, POST, DELETE, HEAD or COP occurs anywhere in it, letter
    case ignored; every other string and every value that is not a
    string becomes GET. *)
Theorem request_method_exact (m : jsval) :
  request_method m
  = match m with
    | JStr s =>
        if Spec.starts_with "GET" s
           || Spec.occurs_in "PUT" s || Spec.occurs_in "POST" s
           || Spec.occurs_in "DELETE" s || Spec.occurs_in "HEAD" s
           || Spec.occurs_in "COP" s
        then JStr s
        else JStr "GET"
    | _ => JStr "GET"
    end.
Proof.
  destruct m; try reflexivity.
  - apply DispatcherFacts.request_method_characterized.
  - apply DispatcherFacts.request_method_not_string.
    cbn [typeof]. destruct (String.eqb member "__proto__"); discriminate.
Qed.

End VerbFacts.

(* ================================================================= *)
(** ** Errors and results, method by method *)

Module MethodErrors.
Import JS Nodecouch Database Calls.
Local Open Scope string_scope.












(** C9.  [listDatabases(cb, true)] asks for [_all_dbs] with GET and,
    handed a list of database names, calls [cb] with null and the list
    without the names that begin with an underscore, the others in their
    order; [fuel] beyond the length of the list is enough for the loop. *)
Theorem listDatabases_delivers_filtered_list
        (cb : jsval) (names : list string) (fuel : nat) :
  Forall (fun n => n <> EmptyString) names ->
  length names < fuel ->
  method (listDatabases cb (JBool true)) = JStr "GET" /\
  path (listDatabases cb (JBool true)) = JStr "_all_dbs" /\
  connection_target (callback (listDatabases cb (JBool true))) = cb /\
  connection_arguments fuel (callback (listDatabases cb (JBool true)))
                       JNull (JArr (map JStr names))
  = Some (Normal [JNull;
                  JArr (map JStr
                    (filter (fun n => negb (Spec.couch_related n)) names))]).
Proof.
  intros Hnames Hfuel. repeat split.
  cbn [listDatabases callback connection_arguments].
  unfold listDatabases_callback. cbn [is_null is_true negb andb].
  pose proof (HandlerFacts.strip_couch_related_names names [] fuel Hnames Hfuel)
    as Hloop.
  cbn [app length] in Hloop. now rewrite Hloop.
Qed.

Lemma listDatabases_delivers_filtered_list_witness :
  connection_target (callback (listDatabases (JFun "cb") (JBool true)))
  = JFun "cb" /\
  connection_arguments 4 (callback (listDatabases (JFun "cb") (JBool true)))
                       JNull (JArr [JStr "a"; JStr "_replicator"; JStr "b"])
  = Some (Normal [JNull; JArr [JStr "a"; JStr "b"]]).
Proof.
  destruct (listDatabases_delivers_filtered_list
              (JFun "cb") ["a"; "_replicator"; "b"] 4)
    as (_ & _ & Htarget & Hlist).
  - repeat constructor; discriminate.
  - simpl; lia.
  - split; [exact Htarget | exact Hlist].
Defined.

End MethodErrors.
